(** * Classroom administration site: session login, role guards, classroom CRUD

    A shallow embedding of [main.py].  The request handlers are written in a
    small state-and-exception monad over a [World] that holds the session of
    the request being served and the two persistence modules the handlers call
    into ([user_db], [classroom_db]).  The persistence modules are external to
    [main.py]; they enter as interfaces ([UserStore], [ClassroomStore]) and
    every call made through them is recorded in the world's call log.  In
    front of the handlers stands the parsing of the form fields that the
    handlers' signatures declare ([http]). *)

From stdpp Require Import base option strings gmap list.
From Stdlib Require Import ZArith.

Local Open Scope Z_scope.
Local Open Scope string_scope.
Local Open Scope list_scope.

(** ** Data model *)

(** Modelled from the spec: [user_db.Role], the enum {Admin, Student} that
    constrains the [role] form field of POST /register. *)
Inductive Role : Type := Admin | Student.

(** Modelled from the spec: the User record that [user_db.get_user] returns,
    {user_id, password, role}.  The handlers only read the keys ["password"]
    and ["role"], and compare the role with the string ["Admin"].  A record
    with these keys is a non-empty dict, so wherever a handler tests a fetched
    user for truth the test asks whether a user was found. *)
Record User : Type := mkUser {
  u_user_id : string;
  u_password : string;
  u_role : string
}.

(** Equipment flags: the dict built by the create and edit handlers. *)
Abbreviation Equipment := (gmap string bool).

(** Modelled from the spec: the Classroom record held by [classroom_db]. *)
Record Classroom : Type := mkClassroom {
  c_name : string;
  c_location : string;
  c_capacity : Z;
  c_equipment : Equipment
}.

(** A Python dict with string keys and string values: the session, and the
    dict that [get_current_user] builds. *)
Abbreviation Dict := (gmap string string).

(** Truthiness of the Python values the handlers test. *)
Definition truthy_str (s : string) : bool :=
  match s with EmptyString => false | _ => true end.

Definition truthy_dict (d : Dict) : bool :=
  negb (bool_decide (d = ∅)).

Definition truthy_opt_dict (o : option Dict) : bool :=
  match o with Some d => truthy_dict d | None => false end.

(** Values placed in a template context. *)
Inductive CtxValue : Type :=
| CNone
| CRequest
| CStr (s : string)
| CInt (z : Z)
| CDict (d : Dict)
| CClassroom (c : Classroom)
| CClassrooms (l : list (Z * Classroom)).

Definition ctx_opt_dict (o : option Dict) : CtxValue :=
  match o with Some d => CDict d | None => CNone end.

(** What a handler returns. [TemplateResponse] is sent with status 200. *)
Inductive Response : Type :=
| TemplateResponse (name : string) (context : gmap string CtxValue)
| RedirectResponse (url : string) (status_code : Z).

Definition HTTP_302_FOUND : Z := 302.
Definition HTTP_303_SEE_OTHER : Z := 303.

Definition response_status (r : Response) : Z :=
  match r with
  | TemplateResponse _ _ => 200
  | RedirectResponse _ code => code
  end.

Definition is_redirect (r : Response) : bool :=
  match r with RedirectResponse _ _ => true | TemplateResponse _ _ => false end.

(** What a handler raises. *)
Record HTTPException : Type := mkHTTPException {
  exc_status_code : Z;
  exc_detail : string
}.

(** ** The persistence modules as interfaces *)

(** [user_db] and [classroom_db] are imported by [main.py] and not defined in
    it.  A store is a state of type [U] or [C]; a lookup reads the state, a
    write answers and gives the next state. *)

Class UserStore (U : Type) : Type := {
  store_get_user : string → U → option User;
  store_register_user : string → string → Role → U → bool * U
}.

Class ClassroomStore (C : Type) : Type := {
  store_create_classroom : string → string → Z → Equipment → C → Z * C;
  store_get_classroom : Z → C → option Classroom;
  store_get_all_classrooms : C → list (Z * Classroom);
  store_update_classroom : Z → string → string → Z → Equipment → C → bool * C;
  store_delete_classroom : Z → C → bool * C
}.

(** One entry per call into a persistence module. *)
Inductive StoreCall : Type :=
| CallGetUser (user_id : string)
| CallRegisterUser (user_id password : string) (role : Role)
| CallCreateClassroom (name location : string) (capacity : Z) (equipment : Equipment)
| CallGetClassroom (classroom_id : Z)
| CallGetAllClassrooms
| CallUpdateClassroom (classroom_id : Z) (name location : string) (capacity : Z)
    (equipment : Equipment)
| CallDeleteClassroom (classroom_id : Z).

Definition is_classroom_call (c : StoreCall) : bool :=
  match c with
  | CallGetUser _ | CallRegisterUser _ _ _ => false
  | _ => true
  end.

(** ** The world a handler runs in *)

Record World (U C : Type) : Type := mkWorld {
  session : Dict;
  user_db : U;
  classroom_db : C;
  calls : list StoreCall
}.
Arguments mkWorld {U C} _ _ _ _.
Arguments session {U C} _.
Arguments user_db {U C} _.
Arguments classroom_db {U C} _.
Arguments calls {U C} _.

Inductive Outcome (A : Type) : Type :=
| Returned (a : A)
| Raised (e : HTTPException).
Arguments Returned {A} _.
Arguments Raised {A} _.

Definition M (U C A : Type) : Type := World U C → Outcome A * World U C.

Section Monad.
Context {U C : Type}.

Definition ret {A} (a : A) : M U C A := λ w, (Returned a, w).

Definition bind {A B} (m : M U C A) (k : A → M U C B) : M U C B :=
  λ w, match m w with
       | (Returned a, w') => k a w'
       | (Raised e, w') => (Raised e, w')
       end.

Definition raise {A} (e : HTTPException) : M U C A := λ w, (Raised e, w).

Definition session_get (key : string) : M U C (option string) :=
  λ w, (Returned (session w !! key), w).

Definition session_set (key value : string) : M U C unit :=
  λ w, (Returned (), mkWorld (<[key := value]> (session w))
                       (user_db w) (classroom_db w) (calls w)).

Definition session_clear : M U C unit :=
  λ w, (Returned (), mkWorld ∅ (user_db w) (classroom_db w) (calls w)).
End Monad.

#[global] Instance M_ret {U C} : MRet (M U C) := @ret U C.
#[global] Instance M_bind {U C} : MBind (M U C) := λ A B k m, bind m k.

(** ** [main.py] *)

Section Main.
Context {U C : Type} `{!UserStore U} `{!ClassroomStore C}.

Definition log_call (c : StoreCall) (u : U) (cdb : C) (w : World U C) : World U C :=
  mkWorld (session w) u cdb (calls w ++ [c]).

(** *** Calls into [user_db] and [classroom_db] *)

Definition get_user (user_id : string) : M U C (option User) :=
  λ w, (Returned (store_get_user user_id (user_db w)),
        log_call (CallGetUser user_id) (user_db w) (classroom_db w) w).

Definition register_user (user_id password : string) (role : Role) : M U C bool :=
  λ w, let '(ok, u) := store_register_user user_id password role (user_db w) in
       (Returned ok,
        log_call (CallRegisterUser user_id password role) u (classroom_db w) w).

Definition create_classroom (name location : string) (capacity : Z)
    (equipment : Equipment) : M U C Z :=
  λ w, let '(cid, c) :=
         store_create_classroom name location capacity equipment (classroom_db w) in
       (Returned cid,
        log_call (CallCreateClassroom name location capacity equipment)
          (user_db w) c w).

Definition get_classroom (classroom_id : Z) : M U C (option Classroom) :=
  λ w, (Returned (store_get_classroom classroom_id (classroom_db w)),
        log_call (CallGetClassroom classroom_id) (user_db w) (classroom_db w) w).

Definition get_all_classrooms : M U C (list (Z * Classroom)) :=
  λ w, (Returned (store_get_all_classrooms (classroom_db w)),
        log_call CallGetAllClassrooms (user_db w) (classroom_db w) w).

Definition update_classroom (classroom_id : Z) (name location : string)
    (capacity : Z) (equipment : Equipment) : M U C bool :=
  λ w, let '(ok, c) :=
         store_update_classroom classroom_id name location capacity equipment
           (classroom_db w) in
       (Returned ok,
        log_call (CallUpdateClassroom classroom_id name location capacity equipment)
          (user_db w) c w).

Definition delete_classroom (classroom_id : Z) : M U C bool :=
  λ w, let '(ok, c) := store_delete_classroom classroom_id (classroom_db w) in
       (Returned ok, log_call (CallDeleteClassroom classroom_id) (user_db w) c w).

(** *** Helper functions *)

Definition get_current_user : M U C (option Dict) :=
  user_id ← session_get "user_id";
  match user_id with
  | None => mret None
  | Some user_id =>
      if negb (truthy_str user_id) then mret None
      else
        user ← get_user user_id;
        match user with
        | Some user =>
            mret (Some ({[ "user_id" := user_id; "role" := u_role user ]} : Dict))
        | None => mret None
        end
  end.

Definition require_auth : M U C Dict :=
  user ← get_current_user;
  match user with
  | Some user =>
      if negb (truthy_dict user)
      then raise (mkHTTPException 401 "로그인이 필요합니다.")
      else mret user
  | None => raise (mkHTTPException 401 "로그인이 필요합니다.")
  end.

Definition require_admin : M U C Dict :=
  user ← require_auth;
  if negb (bool_decide (user !! "role" = Some "Admin"))
  then raise (mkHTTPException 403 "관리자 권한이 필요합니다.")
  else mret user.

(** *** 1. Authentication endpoints *)

Definition get_register_form : M U C Response :=
  user ← get_current_user;
  if truthy_opt_dict user
  then mret (RedirectResponse "/" HTTP_302_FOUND)
  else mret (TemplateResponse "register.html"
               {[ "request" := CRequest; "error_message" := CNone ]}).

Definition post_register (user_id password : string) (role : Role) : M U C Response :=
  if negb (truthy_str user_id) || negb (truthy_str password)
  then
    let error_msg := "ID와 비밀번호를 모두 입력해야 합니다." in
    mret (TemplateResponse "register.html"
            {[ "request" := CRequest; "error_message" := CStr error_msg ]})
  else
    ok ← register_user user_id password role;
    if (ok : bool)
    then mret (RedirectResponse "/login" HTTP_303_SEE_OTHER)
    else
      let error_msg := "'" +:+ user_id +:+ "'는 이미 사용 중인 ID입니다." in
      mret (TemplateResponse "register.html"
              {[ "request" := CRequest; "error_message" := CStr error_msg ]}).

Definition get_login_form : M U C Response :=
  user ← get_current_user;
  if truthy_opt_dict user
  then mret (RedirectResponse "/" HTTP_302_FOUND)
  else mret (TemplateResponse "login.html"
               {[ "request" := CRequest; "error_message" := CNone ]}).

Definition post_login (user_id password : string) : M U C Response :=
  user ← get_user user_id;
  match user with
  | None =>
      let error_msg := "ID 또는 비밀번호가 올바르지 않습니다." in
      mret (TemplateResponse "login.html"
              {[ "request" := CRequest; "error_message" := CStr error_msg ]})
  | Some user =>
      if negb (bool_decide (u_password user = password))
      then
        let error_msg := "ID 또는 비밀번호가 올바르지 않습니다." in
        mret (TemplateResponse "login.html"
                {[ "request" := CRequest; "error_message" := CStr error_msg ]})
      else
        session_set "user_id" user_id;;
        session_set "role" (u_role user);;
        mret (RedirectResponse "/" HTTP_303_SEE_OTHER)
  end.

Definition logout : M U C Response :=
  session_clear;;
  mret (RedirectResponse "/login" HTTP_302_FOUND).

(** *** 2. Main page *)

Definition root : M U C Response :=
  user ← get_current_user;
  if negb (truthy_opt_dict user)
  then mret (RedirectResponse "/login" HTTP_302_FOUND)
  else mret (TemplateResponse "index.html"
               {[ "request" := CRequest; "user" := ctx_opt_dict user ]}).

(** *** 3. Classroom management *)

Definition list_classrooms : M U C Response :=
  require_auth;;
  classrooms ← get_all_classrooms;
  user ← get_current_user;
  mret (TemplateResponse "classrooms.html"
          {[ "request" := CRequest;
             "classrooms" := CClassrooms classrooms;
             "user" := ctx_opt_dict user ]}).

Definition create_classroom_form : M U C Response :=
  require_admin;;
  user ← get_current_user;
  mret (TemplateResponse "classroom_form.html"
          {[ "request" := CRequest;
             "user" := ctx_opt_dict user;
             "classroom" := CNone;
             "mode" := CStr "create" ]}).

Definition create_classroom_post (name location : string) (capacity : Z)
    (projector whiteboard : bool) : M U C Response :=
  require_admin;;
  let equipment : Equipment := ∅ in
  let equipment := if projector then <["projector" := true]> equipment else equipment in
  let equipment := if whiteboard then <["whiteboard" := true]> equipment else equipment in
  classroom_id ← create_classroom name location capacity equipment;
  mret (RedirectResponse "/classrooms" HTTP_303_SEE_OTHER).

Definition edit_classroom_form (classroom_id : Z) : M U C Response :=
  require_admin;;
  classroom ← get_classroom classroom_id;
  match classroom with
  | None => raise (mkHTTPException 404 "강의실을 찾을 수 없습니다.")
  | Some classroom =>
      user ← get_current_user;
      mret (TemplateResponse "classroom_form.html"
              {[ "request" := CRequest;
                 "user" := ctx_opt_dict user;
                 "classroom" := CClassroom classroom;
                 "classroom_id" := CInt classroom_id;
                 "mode" := CStr "edit" ]})
  end.

Definition edit_classroom_post (classroom_id : Z) (name location : string)
    (capacity : Z) (projector whiteboard : bool) : M U C Response :=
  require_admin;;
  let equipment : Equipment := ∅ in
  let equipment := if projector then <["projector" := true]> equipment else equipment in
  let equipment := if whiteboard then <["whiteboard" := true]> equipment else equipment in
  ok ← update_classroom classroom_id name location capacity equipment;
  if negb ok
  then raise (mkHTTPException 404 "강의실을 찾을 수 없습니다.")
  else mret (RedirectResponse "/classrooms" HTTP_303_SEE_OTHER).

Definition delete_classroom_post (classroom_id : Z) : M U C Response :=
  require_admin;;
  ok ← delete_classroom classroom_id;
  if negb ok
  then raise (mkHTTPException 404 "강의실을 찾을 수 없습니다.")
  else mret (RedirectResponse "/classrooms" HTTP_303_SEE_OTHER).

(** *** The routes *)

Inductive Request : Type :=
| GET_register
| POST_register (user_id password : string) (role : Role)
| GET_login
| POST_login (user_id password : string)
| GET_logout
| GET_root
| GET_classrooms
| GET_classrooms_create
| POST_classrooms_create (name location : string) (capacity : Z)
    (projector whiteboard : bool)
| GET_classrooms_edit (classroom_id : Z)
| POST_classrooms_edit (classroom_id : Z) (name location : string) (capacity : Z)
    (projector whiteboard : bool)
| POST_classrooms_delete (classroom_id : Z).

Definition app (r : Request) : M U C Response :=
  match r with
  | GET_register => get_register_form
  | POST_register user_id password role => post_register user_id password role
  | GET_login => get_login_form
  | POST_login user_id password => post_login user_id password
  | GET_logout => logout
  | GET_root => root
  | GET_classrooms => list_classrooms
  | GET_classrooms_create => create_classroom_form
  | POST_classrooms_create name location capacity projector whiteboard =>
      create_classroom_post name location capacity projector whiteboard
  | GET_classrooms_edit classroom_id => edit_classroom_form classroom_id
  | POST_classrooms_edit classroom_id name location capacity projector whiteboard =>
      edit_classroom_post classroom_id name location capacity projector whiteboard
  | POST_classrooms_delete classroom_id => delete_classroom_post classroom_id
  end.

(** The endpoints of the route table that demand the Admin role. *)
Definition admin_only (r : Request) : bool :=
  match r with
  | GET_classrooms_create | POST_classrooms_create _ _ _ _ _
  | GET_classrooms_edit _ | POST_classrooms_edit _ _ _ _ _ _
  | POST_classrooms_delete _ => true
  | _ => false
  end.

(** The admin-only endpoints that write to the Classroom Store. *)
Definition admin_write (r : Request) : bool :=
  match r with
  | POST_classrooms_create _ _ _ _ _ | POST_classrooms_edit _ _ _ _ _ _
  | POST_classrooms_delete _ => true
  | _ => false
  end.
End Main.

(** One browser sending requests one after the other: the session cookie and
    the stores carry over from each request to the next. *)
Fixpoint serve {U C : Type} `{!UserStore U} `{!ClassroomStore C}
    (rs : list Request) (w : World U C) : list (Outcome Response) * World U C :=
  match rs with
  | [] => ([], w)
  | r :: rs =>
      let '(o, w1) := app r w in
      let '(os, w2) := serve rs w1 in
      (o :: os, w2)
  end.

(** ** Dict-backed stores *)

Definition Role_value (r : Role) : string :=
  match r with Admin => "Admin" | Student => "Student" end.

(** Modelled from the spec: the User Store of [user_db], which is not part of
    [main.py]: users keyed by their unique [user_id]; [get] looks a user up,
    [register] refuses an id that is taken and leaves the stored record as it
    was, and otherwise stores the new user. *)
#[global] Instance UserDict : UserStore (gmap string User) := {
  store_get_user user_id db := db !! user_id;
  store_register_user user_id password role db :=
    match db !! user_id with
    | Some _ => (false, db)
    | None => (true, <[user_id := mkUser user_id password (Role_value role)]> db)
    end
}.

Record ClassroomDict : Type := mkClassroomDict {
  rooms : gmap Z Classroom;
  next_id : Z
}.

(** Modelled from the spec: the Classroom Store of [classroom_db], which is
    not part of [main.py]: classrooms keyed by an integer id that the store
    assigns; [update] and [delete] report whether the id exists and leave the
    store alone when it does not. *)
#[global] Instance ClassroomDictStore : ClassroomStore ClassroomDict := {
  store_create_classroom name location capacity equipment db :=
    (next_id db,
     mkClassroomDict
       (<[next_id db := mkClassroom name location capacity equipment]> (rooms db))
       (next_id db + 1));
  store_get_classroom classroom_id db := rooms db !! classroom_id;
  store_get_all_classrooms db := map_to_list (rooms db);
  store_update_classroom classroom_id name location capacity equipment db :=
    match rooms db !! classroom_id with
    | Some _ =>
        (true,
         mkClassroomDict
           (<[classroom_id := mkClassroom name location capacity equipment]> (rooms db))
           (next_id db))
    | None => (false, db)
    end;
  store_delete_classroom classroom_id db :=
    match rooms db !! classroom_id with
    | Some _ => (true, mkClassroomDict (delete classroom_id (rooms db)) (next_id db))
    | None => (false, db)
    end
}.

(** Modelled from the spec: the part of [classroom_db]'s contract that the
    handlers of [main.py] rely on and cannot enforce themselves: an [update]
    or [delete] that reports "no such id" has not altered the store. *)
Class FailedWriteIsNoop (C : Type) `{!ClassroomStore C} : Prop := {
  update_classroom_absent :
    ∀ classroom_id name location capacity equipment (db : C),
      (store_update_classroom classroom_id name location capacity equipment db).1 = false →
      (store_update_classroom classroom_id name location capacity equipment db).2 = db;
  delete_classroom_absent :
    ∀ classroom_id (db : C),
      (store_delete_classroom classroom_id db).1 = false →
      (store_delete_classroom classroom_id db).2 = db
}.

(** The equipment dict of the create and edit handlers, as a function of the
    two submitted flags. *)
Definition submitted_equipment (projector whiteboard : bool) : Equipment :=
  let equipment : Equipment := ∅ in
  let equipment := if projector then <["projector" := true]> equipment else equipment in
  let equipment := if whiteboard then <["whiteboard" := true]> equipment else equipment in
  equipment.

(** A world with another user store, everything else as it was. *)
Definition with_user_db {U C : Type} (u : U) (w : World U C) : World U C :=
  mkWorld (session w) u (classroom_db w) (calls w).

(** A POST /login fails when the store has no such user or the stored
    password is not the submitted one. *)
Definition login_fails {U C : Type} `{!UserStore U}
    (user_id password : string) (w : World U C) : Prop :=
  match store_get_user user_id (user_db w) with
  | None => True
  | Some user => u_password user ≠ password
  end.

(** ** Concrete worlds on the dict-backed stores *)

Module Demo.
Definition alice : User := mkUser "alice" "pw1" "Admin".
Definition bob : User := mkUser "bob" "pw2" "Student".

Definition users : gmap string User := {[ "alice" := alice; "bob" := bob ]}.

Definition lab1 : Classroom := mkClassroom "Lab1" "Bldg A" 30 {[ "projector" := true ]}.

Definition classrooms : ClassroomDict := mkClassroomDict {[ 1 := lab1 ]} 2.

Abbreviation W := (World (gmap string User) ClassroomDict).

(** No session cookie. *)
Definition anonymous : W := mkWorld ∅ users classrooms [].

(** The session [post_login] leaves for alice, an Admin. *)
Definition as_alice : W :=
  mkWorld {[ "user_id" := "alice"; "role" := "Admin" ]} users classrooms [].

(** The session [post_login] leaves for bob, a Student. *)
Definition as_bob : W :=
  mkWorld {[ "user_id" := "bob"; "role" := "Student" ]} users classrooms [].

(** Alice's record after her role was changed to Student in the store. *)
Definition users_alice_demoted : gmap string User :=
  <[ "alice" := mkUser "alice" "pw1" "Student" ]> users.

(** Empty stores, no session. *)
Definition fresh : W := mkWorld ∅ ∅ (mkClassroomDict ∅ 1) [].

(** Alice logs in; afterwards the store changes her role to Student. *)
Definition after_login : W := (post_login "alice" "pw1" anonymous).2.
Definition after_demotion : W := with_user_db users_alice_demoted after_login.
End Demo.

(** ** Classifying routes and store calls *)

(** A world with another session cookie, everything else as it was. *)
Definition with_session {U C : Type} (s : Dict) (w : World U C) : World U C :=
  mkWorld s (user_db w) (classroom_db w) (calls w).

(** The store calls that only read. *)
Definition is_lookup_call (c : StoreCall) : bool :=
  match c with
  | CallGetUser _ | CallGetClassroom _ | CallGetAllClassrooms => true
  | _ => false
  end.

(** The routes registered with [@app.get]. *)
Definition is_get (r : Request) : bool :=
  match r with
  | GET_register | GET_login | GET_logout | GET_root | GET_classrooms
  | GET_classrooms_create | GET_classrooms_edit _ => true
  | _ => false
  end.

(** The routes whose handler starts with [require_auth] or [require_admin]. *)
Definition requires_login (r : Request) : bool :=
  match r with
  | GET_classrooms => true
  | _ => admin_only r
  end.

Definition is_login (r : Request) : bool :=
  match r with POST_login _ _ => true | _ => false end.

Definition is_logout (r : Request) : bool :=
  match r with GET_logout => true | _ => false end.

Definition is_register (r : Request) : bool :=
  match r with POST_register _ _ _ => true | _ => false end.

(** ** What a handler leaves alone *)

(** [keeps f m]: running [m] never changes the component [f] of the world. *)
Definition keeps {U C A B : Type} (f : World U C → A) (m : M U C B) : Prop :=
  ∀ w, f (m w).2 = f w.

(** [only_looks_up m]: the store calls [m] makes are all lookups. *)
Definition only_looks_up {U C B : Type} (m : M U C B) : Prop :=
  ∀ w, ∃ t, calls (m w).2 = calls w ++ t ∧ Forall (λ c, is_lookup_call c = true) t.

(** Two worlds that differ at most in what the session holds besides the
    user_id, and in their call logs. *)
Definition same_user {U C : Type} (w w' : World U C) : Prop :=
  session w !! "user_id" = session w' !! "user_id" ∧
  user_db w = user_db w' ∧
  classroom_db w = classroom_db w'.

(** [role_blind m]: what [m] answers, and the user and stores it leaves,
    depend on the session through its user_id only. *)
Definition role_blind {U C B : Type} (m : M U C B) : Prop :=
  ∀ w w', same_user w w' → (m w).1 = (m w').1 ∧ same_user (m w).2 (m w').2.

(** ** Form parsing in front of the handlers *)

(** What the browser gets back: what the handler returned or raised, or the
    422 with which a request is turned away before any handler is called. *)
Inductive Reply : Type :=
| Handled (o : Outcome Response)
| Unprocessable.

Definition reply_status (a : Reply) : Z :=
  match a with
  | Handled (Returned resp) => response_status resp
  | Handled (Raised e) => exc_status_code e
  | Unprocessable => 422
  end.

(** The handlers' signatures declare their text fields as [Form(...)]:
    required.  A request that submits such a field as the empty string does
    not pass: [user_id] and [password] of POST /register and POST /login,
    [name] and [location] of POST /classrooms/create and
    /classrooms/{id}/edit.  ([capacity], [role] and the two flags arrive
    parsed, as [Z], [Role] and [bool].) *)
Definition form_ok (r : Request) : bool :=
  match r with
  | POST_register user_id password _ => truthy_str user_id && truthy_str password
  | POST_login user_id password => truthy_str user_id && truthy_str password
  | POST_classrooms_create name location _ _ _ => truthy_str name && truthy_str location
  | POST_classrooms_edit _ name location _ _ _ => truthy_str name && truthy_str location
  | _ => true
  end.

(** One request as the program answers it: the fields are parsed first, and
    only a request that passes reaches its handler. *)
Definition http {U C : Type} `{!UserStore U} `{!ClassroomStore C}
    (r : Request) (w : World U C) : Reply * World U C :=
  if form_ok r
  then let '(o, w1) := app r w in (Handled o, w1)
  else (Unprocessable, w).

(** The worlds one browser can find itself in: it starts without a session
    cookie, sends requests, and between its requests the stores may have been
    changed by others. *)
Inductive reachable {U C : Type} `{!UserStore U} `{!ClassroomStore C} :
    World U C → Prop :=
| reachable_fresh (u : U) (c : C) (log : list StoreCall) :
    reachable (mkWorld ∅ u c log)
| reachable_request (r : Request) (w : World U C) :
    reachable w → reachable (http r w).2
| reachable_stores (u : U) (c : C) (w : World U C) :
    reachable w → reachable (mkWorld (session w) u c (calls w)).

(** The two shapes a session has: empty, or the pair [post_login] writes. *)
Definition login_session (s : Dict) : Prop :=
  s = ∅ ∨ ∃ user_id role : string,
            user_id ≠ "" ∧ s = {[ "user_id" := user_id; "role" := role ]}.

(** ** Proofs *)

Ltac unfold_monad :=
  unfold mbind, M_bind, bind, mret, M_ret, ret, raise,
    session_get, session_set, session_clear in *.

Section Guards.
Context {U C : Type} `{!UserStore U} `{!ClassroomStore C}.
Implicit Types (w : World U C) (d : Dict).

Lemma truthy_str_true (s : string) : truthy_str s = true ↔ s ≠ "".
Proof. destruct s; simpl; split; congruence. Qed.

(** [get_current_user] either stops at the session, or makes exactly one
    [get_user] call and answers from the record it finds. *)
Lemma get_current_user_unfold w :
  get_current_user w =
  match session w !! "user_id" with
  | Some user_id =>
      if truthy_str user_id then
        (Returned
           (match store_get_user user_id (user_db w) with
            | Some user =>
                Some ({[ "user_id" := user_id; "role" := u_role user ]} : Dict)
            | None => None
            end),
         log_call (CallGetUser user_id) (user_db w) (classroom_db w) w)
      else (Returned None, w)
  | None => (Returned None, w)
  end.
Proof.
  unfold get_current_user, get_user. unfold_monad.
  destruct (session w !! "user_id") as [uid|]; [|done].
  destruct (truthy_str uid); simpl; [|done].
  by destruct (store_get_user uid (user_db w)).
Qed.

Lemma user_dict_lookup_role (user_id role : string) :
  ({[ "user_id" := user_id; "role" := role ]} : Dict) !! "role" = Some role.
Proof. by rewrite lookup_insert_ne, lookup_singleton_eq. Qed.

Lemma user_dict_lookup_user_id (user_id role : string) :
  ({[ "user_id" := user_id; "role" := role ]} : Dict) !! "user_id" = Some user_id.
Proof. by rewrite lookup_insert_eq. Qed.

Lemma user_dict_truthy (user_id role : string) :
  truthy_dict {[ "user_id" := user_id; "role" := role ]} = true.
Proof.
  unfold truthy_dict. rewrite bool_decide_eq_false_2; [done|].
  apply insert_non_empty.
Qed.

(** The current user, when there is one, is the session's user and carries
    the role of the store's record. *)
Lemma get_current_user_Some w d :
  (get_current_user w).1 = Returned (Some d) →
  ∃ user_id user,
    session w !! "user_id" = Some user_id ∧ user_id ≠ "" ∧
    store_get_user user_id (user_db w) = Some user ∧
    d = {[ "user_id" := user_id; "role" := u_role user ]} ∧
    (get_current_user w).2 =
      log_call (CallGetUser user_id) (user_db w) (classroom_db w) w.
Proof.
  rewrite get_current_user_unfold.
  destruct (session w !! "user_id") as [uid|]; [|done].
  destruct (truthy_str uid) eqn:Ht; [|done]. simpl.
  destruct (store_get_user uid (user_db w)) as [u|] eqn:Hu; [|done].
  intros [= <-]. exists uid, u. by rewrite <- truthy_str_true.
Qed.

Lemma get_current_user_returns w : ∃ o, (get_current_user w).1 = Returned o.
Proof.
  rewrite get_current_user_unfold.
  destruct (session w !! "user_id") as [uid|]; [|by eexists].
  destruct (truthy_str uid); by eexists.
Qed.

(** The guard leaves session and stores alone and logs user lookups only. *)
Lemma get_current_user_world w :
  session (get_current_user w).2 = session w ∧
  user_db (get_current_user w).2 = user_db w ∧
  classroom_db (get_current_user w).2 = classroom_db w ∧
  ∃ t, calls (get_current_user w).2 = calls w ++ t ∧
       Forall (λ c, is_classroom_call c = false) t.
Proof.
  rewrite get_current_user_unfold.
  destruct (session w !! "user_id") as [uid|].
  - destruct (truthy_str uid); simpl.
    + repeat split; try done. exists [CallGetUser uid]. split; [done|].
      by constructor.
    + repeat split; try done. exists []. by rewrite app_nil_r.
  - repeat split; try done. exists []. by rewrite app_nil_r.
Qed.

Lemma require_auth_None w :
  (get_current_user w).1 = Returned None →
  require_auth w =
    (Raised (mkHTTPException 401 "로그인이 필요합니다."), (get_current_user w).2).
Proof.
  intros H. unfold require_auth. unfold_monad.
  destruct (get_current_user w) as [o w']. simpl in *. by subst.
Qed.

Lemma require_auth_Some w d :
  (get_current_user w).1 = Returned (Some d) →
  require_auth w = (Returned d, (get_current_user w).2).
Proof.
  intros H. destruct (get_current_user_Some _ _ H) as (uid & u & _ & _ & _ & -> & _).
  unfold require_auth. unfold_monad.
  destruct (get_current_user w) as [o w']. simpl in *. subst.
  by rewrite user_dict_truthy.
Qed.

Lemma require_admin_None w :
  (get_current_user w).1 = Returned None →
  require_admin w =
    (Raised (mkHTTPException 401 "로그인이 필요합니다."), (get_current_user w).2).
Proof.
  intros H. unfold require_admin. unfold_monad. by rewrite (require_auth_None _ H).
Qed.

Lemma require_admin_not_Admin w d :
  (get_current_user w).1 = Returned (Some d) →
  d !! "role" ≠ Some "Admin" →
  require_admin w =
    (Raised (mkHTTPException 403 "관리자 권한이 필요합니다."), (get_current_user w).2).
Proof.
  intros H Hr. unfold require_admin. unfold_monad. rewrite (require_auth_Some _ _ H).
  by rewrite bool_decide_eq_false_2.
Qed.

Lemma require_admin_Admin w d :
  (get_current_user w).1 = Returned (Some d) →
  d !! "role" = Some "Admin" →
  require_admin w = (Returned d, (get_current_user w).2).
Proof.
  intros H Hr. unfold require_admin. unfold_monad. rewrite (require_auth_Some _ _ H).
  by rewrite bool_decide_eq_true_2.
Qed.

(** A handler that starts with a guard stops where the guard stops. *)
Lemma guarded_raises {A B} (k : A → M U C B) (m : M U C A) w e w' :
  m w = (Raised e, w') → (m ≫= k) w = (Raised e, w').
Proof. intros H. unfold_monad. by rewrite H. Qed.

Lemma guarded_returns {A B} (k : A → M U C B) (m : M U C A) w a w' :
  m w = (Returned a, w') → (m ≫= k) w = k a w'.
Proof. intros H. unfold_monad. by rewrite H. Qed.

Lemma admin_only_raises (r : Request) w e w' :
  admin_only r = true →
  require_admin w = (Raised e, w') →
  app r w = (Raised e, w').
Proof.
  intros Hr H. destruct r; try discriminate Hr; simpl;
    by apply guarded_raises.
Qed.
End Guards.

(** ** The auth guard *)

Section GuardClaims.
Context {U C : Type} `{!UserStore U} `{!ClassroomStore C}.
Implicit Types (w : World U C) (d : Dict).

(** C1. On each admin-only classroom endpoint (GET and POST
    /classrooms/create, GET and POST /classrooms/{id}/edit, POST
    /classrooms/{id}/delete): when the session yields no authenticated user
    the handler raises HTTP 401, and when it yields a user whose role is not
    Admin the handler raises HTTP 403.  In both cases the handler stops in
    the world the guard's own user lookup left behind, so none of the
    handler body has run. *)
Theorem admin_endpoint_rejects (r : Request) w :
  admin_only r = true →
  ((get_current_user w).1 = Returned None →
     app r w = (Raised (mkHTTPException 401 "로그인이 필요합니다."),
                (get_current_user w).2))
  ∧ (∀ d, (get_current_user w).1 = Returned (Some d) →
          d !! "role" ≠ Some "Admin" →
     app r w = (Raised (mkHTTPException 403 "관리자 권한이 필요합니다."),
                (get_current_user w).2)).
Proof.
  intros Hr. split.
  - intros Hnone. apply admin_only_raises; [done|]. by apply require_admin_None.
  - intros d Hsome Hrole. apply admin_only_raises; [done|].
    by apply require_admin_not_Admin with d.
Qed.

(** C10. A POST to /classrooms/create, /classrooms/{id}/edit or
    /classrooms/{id}/delete whose session yields no user or a non-Admin user
    raises the guard's HTTP error (401 or 403) with the Classroom Store as it
    was, and the calls it made are calls to the User Store only: no
    classroom is created, updated or deleted. *)
Theorem unauthorized_write_leaves_classrooms (r : Request) w :
  admin_write r = true →
  (get_current_user w).1 = Returned None
  ∨ (∃ d, (get_current_user w).1 = Returned (Some d) ∧ d !! "role" ≠ Some "Admin") →
  ∃ e t,
    (app r w).1 = Raised e ∧
    (exc_status_code e = 401 ∨ exc_status_code e = 403) ∧
    classroom_db (app r w).2 = classroom_db w ∧
    calls (app r w).2 = calls w ++ t ∧
    Forall (λ c, is_classroom_call c = false) t.
Proof.
  intros Hr Hu.
  assert (admin_only r = true) as Ha by (by destruct r).
  destruct (get_current_user_world w) as (_ & _ & Hc & t & Ht & Hall).
  destruct Hu as [Hnone | (d & Hsome & Hrole)].
  - exists (mkHTTPException 401 "로그인이 필요합니다."), t.
    rewrite (admin_only_raises r w _ _ Ha (require_admin_None _ Hnone)).
    simpl. auto.
  - exists (mkHTTPException 403 "관리자 권한이 필요합니다."), t.
    rewrite (admin_only_raises r w _ _ Ha (require_admin_not_Admin _ _ Hsome Hrole)).
    simpl. auto.
Qed.

(** What [get_current_user] does on any session, one with an empty user_id
    included.  It returns None, without
    consulting the User Store, when the session holds no user_id or holds
    the empty string as user_id.  When the session holds a non-empty
    user_id it fetches that user's record from the User Store (one
    [get_user] call, nothing else changes), returns None if there is no such
    user, and otherwise returns the dict with exactly the keys user_id, from
    the session, and role, from the fetched record. *)
Lemma get_current_user_correct w :
  (session w !! "user_id" = None ∨ session w !! "user_id" = Some "" →
     get_current_user w = (Returned None, w))
  ∧ (∀ user_id, session w !! "user_id" = Some user_id → user_id ≠ "" →
       (get_current_user w).2 =
         log_call (CallGetUser user_id) (user_db w) (classroom_db w) w
       ∧ (store_get_user user_id (user_db w) = None →
            (get_current_user w).1 = Returned None)
       ∧ (∀ user, store_get_user user_id (user_db w) = Some user →
            ∃ d, (get_current_user w).1 = Returned (Some d) ∧
                 d !! "user_id" = Some user_id ∧
                 d !! "role" = Some (u_role user) ∧
                 dom d = {[ "user_id"; "role" ]})).
Proof.
  rewrite get_current_user_unfold. split.
  - by intros [-> | ->].
  - intros uid -> Hne. apply truthy_str_true in Hne as ->. simpl.
    split; [done|]. split.
    + by intros ->.
    + intros u ->. eexists. split; [done|].
      rewrite user_dict_lookup_user_id, user_dict_lookup_role.
      split; [done|]. split; [done|].
      by rewrite dom_insert_L, dom_singleton_L.
Qed.

(** C2, as the code has it.  On every request the role the auth guards use
    is the role of the session user's record in the User Store at that
    moment; the role recorded in the session at login is not read.  So
    whatever role the session carries, [require_auth] returns the store's
    role, and [require_admin] lets the request through exactly when the
    store's role is Admin and raises 403 otherwise. *)
Theorem guards_use_store_role w (user_id : string) (user : User) :
  session w !! "user_id" = Some user_id →
  user_id ≠ "" →
  store_get_user user_id (user_db w) = Some user →
  (require_auth w).1 = Returned {[ "user_id" := user_id; "role" := u_role user ]}
  ∧ (u_role user = "Admin" →
       (require_admin w).1 =
         Returned {[ "user_id" := user_id; "role" := u_role user ]})
  ∧ (u_role user ≠ "Admin" →
       (require_admin w).1 =
         Raised (mkHTTPException 403 "관리자 권한이 필요합니다.")).
Proof.
  intros Hs Hne Hu.
  assert ((get_current_user w).1 =
          Returned (Some {[ "user_id" := user_id; "role" := u_role user ]})) as Hcu.
  { rewrite get_current_user_unfold, Hs.
    apply truthy_str_true in Hne as ->. simpl. by rewrite Hu. }
  split; [by rewrite (require_auth_Some _ _ Hcu)|]. split.
  - intros Hr. rewrite (require_admin_Admin _ _ Hcu); [done|].
    by rewrite user_dict_lookup_role, Hr.
  - intros Hr. rewrite (require_admin_not_Admin _ _ Hcu); [done|].
    rewrite user_dict_lookup_role. congruence.
Qed.
End GuardClaims.

(** ** Registration and login *)

Section AuthFlowClaims.
Context {U C : Type} `{!UserStore U} `{!ClassroomStore C}.
Implicit Types (w : World U C).

(** C4. Every POST /login that fails, whether because the User Store has no
    user with the submitted id or because the stored password differs from
    the submitted one, answers with the login form re-rendered (status 200)
    with one and the same generic error message, and leaves the session as
    it was: two failed logins, whatever their cause, get equal responses. *)
Theorem post_login_failure_uniform w1 w2 (user_id1 password1 user_id2 password2 : string) :
  login_fails user_id1 password1 w1 →
  login_fails user_id2 password2 w2 →
  (post_login user_id1 password1 w1).1 =
    Returned (TemplateResponse "login.html"
                {[ "request" := CRequest;
                   "error_message" := CStr "ID 또는 비밀번호가 올바르지 않습니다." ]})
  ∧ (post_login user_id1 password1 w1).1 = (post_login user_id2 password2 w2).1
  ∧ session (post_login user_id1 password1 w1).2 = session w1.
Proof.
  assert (∀ w uid pw, login_fails uid pw w →
            post_login uid pw w =
              (Returned (TemplateResponse "login.html"
                 {[ "request" := CRequest;
                    "error_message" := CStr "ID 또는 비밀번호가 올바르지 않습니다." ]}),
               log_call (CallGetUser uid) (user_db w) (classroom_db w) w)) as Hfail.
  { intros w uid pw. unfold login_fails, post_login, get_user. unfold_monad.
    destruct (store_get_user uid (user_db w)) as [u|]; [|done].
    intros Hpw. by rewrite bool_decide_eq_false_2. }
  intros H1 H2. by rewrite (Hfail _ _ _ H1), (Hfail _ _ _ H2).
Qed.

(** C5. A POST /login whose user_id is in the User Store and whose password
    equals the stored one writes into the session the submitted user_id and
    the role of the stored record (the handler takes no role from the
    caller), and answers with a redirect to / with status 303. *)
Theorem post_login_success w (user_id password : string) (user : User) :
  store_get_user user_id (user_db w) = Some user →
  u_password user = password →
  (post_login user_id password w).1 = Returned (RedirectResponse "/" 303)
  ∧ session (post_login user_id password w).2 =
      <[ "role" := u_role user ]> (<[ "user_id" := user_id ]> (session w))
  ∧ session (post_login user_id password w).2 !! "user_id" = Some user_id
  ∧ session (post_login user_id password w).2 !! "role" = Some (u_role user).
Proof.
  intros Hu Hpw. unfold post_login, get_user. unfold_monad. rewrite Hu.
  rewrite bool_decide_eq_true_2 by done. simpl.
  split; [done|]. split; [done|].
  by rewrite lookup_insert_eq, lookup_insert_ne, lookup_insert_eq.
Qed.

(** C6. A POST /register with non-empty user_id and password calls the User
    Store's register once.  If it reports the id taken, the handler answers
    with the registration form re-rendered with a duplicate-id error, a
    status 200 response that is not a redirect; if it reports success, the
    handler answers with a redirect to /login with status 303. *)
Theorem post_register_outcome w (user_id password : string) (role : Role) :
  user_id ≠ "" →
  password ≠ "" →
  calls (post_register user_id password role w).2 =
    calls w ++ [CallRegisterUser user_id password role]
  ∧ ((store_register_user user_id password role (user_db w)).1 = false →
       ∃ resp, (post_register user_id password role w).1 = Returned resp ∧
         resp = TemplateResponse "register.html"
                  {[ "request" := CRequest;
                     "error_message" :=
                       CStr ("'" +:+ user_id +:+ "'는 이미 사용 중인 ID입니다.") ]} ∧
         response_status resp = 200 ∧ is_redirect resp = false)
  ∧ ((store_register_user user_id password role (user_db w)).1 = true →
       (post_register user_id password role w).1 =
         Returned (RedirectResponse "/login" 303)).
Proof.
  intros Hu Hp. apply truthy_str_true in Hu, Hp.
  unfold post_register, register_user. unfold_monad. rewrite Hu, Hp. simpl.
  destruct (store_register_user user_id password role (user_db w)) as [[] db'];
    simpl; (split; [done|]); split; try done.
  intros _. by eexists.
Qed.

(** The first branch of [post_register], taken on its own: called with
    user_id or password the empty string, the handler body
    answers with the registration form re-rendered with an error message, a
    status 200 response that is not a redirect, and changes nothing: the
    User Store is as it was and no call to it, register included, was
    made. *)
Lemma post_register_missing_field w (user_id password : string) (role : Role) :
  user_id = "" ∨ password = "" →
  ∃ resp,
    post_register user_id password role w = (Returned resp, w) ∧
    resp = TemplateResponse "register.html"
             {[ "request" := CRequest;
                "error_message" := CStr "ID와 비밀번호를 모두 입력해야 합니다." ]} ∧
    response_status resp = 200 ∧ is_redirect resp = false.
Proof.
  intros H. eexists. split; [|done].
  unfold post_register. unfold_monad.
  destruct H as [-> | ->]; [done|]. by rewrite orb_true_r.
Qed.
End AuthFlowClaims.

(** ** Classroom management *)

Section ClassroomClaims.
Context {U C : Type} `{!UserStore U} `{!ClassroomStore C}.
Implicit Types (w : World U C) (d : Dict).

Lemma submitted_equipment_lookup (projector whiteboard : bool) (key : string) :
  submitted_equipment projector whiteboard !! key =
    if decide (key = "whiteboard") then (if whiteboard then Some true else None)
    else if decide (key = "projector") then (if projector then Some true else None)
    else None.
Proof.
  unfold submitted_equipment.
  destruct projector, whiteboard; repeat case_decide; by simplify_map_eq.
Qed.

(** The dict holds a key exactly when that flag was submitted as true, and
    then with the value true. *)
Lemma submitted_equipment_spec (projector whiteboard : bool) (key : string) (value : bool) :
  submitted_equipment projector whiteboard !! key = Some value ↔
  value = true ∧
  ((key = "projector" ∧ projector = true) ∨ (key = "whiteboard" ∧ whiteboard = true)).
Proof.
  rewrite submitted_equipment_lookup.
  destruct projector, whiteboard; repeat case_decide; subst;
    intuition congruence.
Qed.

(** An admin passes the guard in the world the guard's user lookup left. *)
Lemma require_admin_passes w d :
  (require_admin w).1 = Returned d →
  require_admin w = (Returned d, (get_current_user w).2).
Proof.
  intros H. destruct (get_current_user_returns w) as [[d'|] Hcu].
  - destruct (decide (d' !! "role" = Some "Admin")) as [Hr|Hr].
    + rewrite (require_admin_Admin _ _ Hcu Hr) in H |- *. simpl in H. congruence.
    + by rewrite (require_admin_not_Admin _ _ Hcu Hr) in H.
  - by rewrite (require_admin_None _ Hcu) in H.
Qed.

Lemma create_classroom_post_admin w d name location capacity projector whiteboard :
  (require_admin w).1 = Returned d →
  create_classroom_post name location capacity projector whiteboard w =
    (Returned (RedirectResponse "/classrooms" 303),
     log_call
       (CallCreateClassroom name location capacity
          (submitted_equipment projector whiteboard))
       (user_db w)
       (store_create_classroom name location capacity
          (submitted_equipment projector whiteboard) (classroom_db w)).2
       (get_current_user w).2).
Proof.
  intros H. apply require_admin_passes in H.
  destruct (get_current_user_world w) as (_ & Hu & Hc & _).
  unfold create_classroom_post. erewrite guarded_returns by exact H.
  unfold create_classroom. unfold_monad. rewrite Hu, Hc.
  fold (submitted_equipment projector whiteboard).
  by destruct (store_create_classroom _ _ _ _ _).
Qed.

Lemma edit_classroom_post_admin w d classroom_id name location capacity
    projector whiteboard :
  (require_admin w).1 = Returned d →
  edit_classroom_post classroom_id name location capacity projector whiteboard w =
    (let r := store_update_classroom classroom_id name location capacity
                (submitted_equipment projector whiteboard) (classroom_db w) in
     (if r.1 then Returned (RedirectResponse "/classrooms" 303)
      else Raised (mkHTTPException 404 "강의실을 찾을 수 없습니다."),
      log_call
        (CallUpdateClassroom classroom_id name location capacity
           (submitted_equipment projector whiteboard))
        (user_db w) r.2 (get_current_user w).2)).
Proof.
  intros H. apply require_admin_passes in H.
  destruct (get_current_user_world w) as (_ & Hu & Hc & _).
  unfold edit_classroom_post. erewrite guarded_returns by exact H.
  unfold update_classroom. unfold_monad. rewrite Hu, Hc.
  fold (submitted_equipment projector whiteboard).
  by destruct (store_update_classroom _ _ _ _ _ _) as [[] ?].
Qed.

Lemma delete_classroom_post_admin w d classroom_id :
  (require_admin w).1 = Returned d →
  delete_classroom_post classroom_id w =
    (let r := store_delete_classroom classroom_id (classroom_db w) in
     (if r.1 then Returned (RedirectResponse "/classrooms" 303)
      else Raised (mkHTTPException 404 "강의실을 찾을 수 없습니다."),
      log_call (CallDeleteClassroom classroom_id) (user_db w) r.2
        (get_current_user w).2)).
Proof.
  intros H. apply require_admin_passes in H.
  destruct (get_current_user_world w) as (_ & Hu & Hc & _).
  unfold delete_classroom_post. erewrite guarded_returns by exact H.
  unfold delete_classroom. unfold_monad. rewrite Hu, Hc.
  by destruct (store_delete_classroom _ _) as [[] ?].
Qed.

(** C8. On an admin's POST /classrooms/create and POST
    /classrooms/{id}/edit the equipment mapping handed to the Classroom
    Store holds a key exactly when that flag was submitted as true, always
    with the value true: a flag submitted as false is left out, and no key
    is present with value false.  It is the last call of the request, and
    the store the request leaves is the store's answer to that call. *)
Theorem equipment_holds_true_flags w d (classroom_id : Z) (name location : string)
    (capacity : Z) (projector whiteboard : bool) :
  (require_admin w).1 = Returned d →
  ∃ equipment : Equipment,
    (∀ key value, equipment !! key = Some value ↔
       value = true ∧
       ((key = "projector" ∧ projector = true) ∨
        (key = "whiteboard" ∧ whiteboard = true)))
    ∧ calls (create_classroom_post name location capacity projector whiteboard w).2 =
        calls (require_admin w).2 ++
          [CallCreateClassroom name location capacity equipment]
    ∧ classroom_db (create_classroom_post name location capacity projector whiteboard w).2 =
        (store_create_classroom name location capacity equipment (classroom_db w)).2
    ∧ calls (edit_classroom_post classroom_id name location capacity projector
               whiteboard w).2 =
        calls (require_admin w).2 ++
          [CallUpdateClassroom classroom_id name location capacity equipment]
    ∧ classroom_db (edit_classroom_post classroom_id name location capacity projector
                      whiteboard w).2 =
        (store_update_classroom classroom_id name location capacity equipment
           (classroom_db w)).2.
Proof.
  intros H. exists (submitted_equipment projector whiteboard).
  split; [apply submitted_equipment_spec|].
  rewrite (create_classroom_post_admin _ _ _ _ _ _ _ H).
  rewrite (edit_classroom_post_admin _ _ _ _ _ _ _ _ H).
  by rewrite (require_admin_passes _ _ H).
Qed.

(** C9. On an admin's POST /classrooms/{id}/edit and POST
    /classrooms/{id}/delete: when the store's update (delete) reports that
    there is no classroom with that id, the handler raises HTTP 404 and the
    Classroom Store is as it was before the request; when the store reports
    that the id exists, the handler answers with a redirect to /classrooms
    with status 303. *)
Theorem edit_delete_not_found `{!FailedWriteIsNoop C} w d (classroom_id : Z)
    (name location : string) (capacity : Z) (projector whiteboard : bool) :
  (require_admin w).1 = Returned d →
  ((store_update_classroom classroom_id name location capacity
      (submitted_equipment projector whiteboard) (classroom_db w)).1 = false →
     (edit_classroom_post classroom_id name location capacity projector whiteboard w).1 =
       Raised (mkHTTPException 404 "강의실을 찾을 수 없습니다.")
     ∧ classroom_db (edit_classroom_post classroom_id name location capacity projector
                       whiteboard w).2 = classroom_db w)
  ∧ ((store_update_classroom classroom_id name location capacity
        (submitted_equipment projector whiteboard) (classroom_db w)).1 = true →
       (edit_classroom_post classroom_id name location capacity projector whiteboard w).1 =
         Returned (RedirectResponse "/classrooms" 303))
  ∧ ((store_delete_classroom classroom_id (classroom_db w)).1 = false →
       (delete_classroom_post classroom_id w).1 =
         Raised (mkHTTPException 404 "강의실을 찾을 수 없습니다.")
       ∧ classroom_db (delete_classroom_post classroom_id w).2 = classroom_db w)
  ∧ ((store_delete_classroom classroom_id (classroom_db w)).1 = true →
       (delete_classroom_post classroom_id w).1 =
         Returned (RedirectResponse "/classrooms" 303)).
Proof.
  intros H.
  rewrite (edit_classroom_post_admin _ _ _ _ _ _ _ _ H).
  rewrite (delete_classroom_post_admin _ _ _ H). simpl.
  split; [|split; [|split]].
  - intros Hno. rewrite Hno. split; [done|]. by apply update_classroom_absent.
  - by intros ->.
  - intros Hno. rewrite Hno. split; [done|]. by apply delete_classroom_absent.
  - by intros ->.
Qed.
End ClassroomClaims.

(** ** The dict-backed stores meet the contract *)

(** On the dict-backed store "the store reports no such id" and "no classroom
    has that id" are the same thing. *)
Lemma dict_update_reports (classroom_id : Z) (name location : string) (capacity : Z)
    (equipment : Equipment) (db : ClassroomDict) :
  (store_update_classroom classroom_id name location capacity equipment db).1 = false ↔
  rooms db !! classroom_id = None.
Proof. simpl. by destruct (rooms db !! classroom_id). Qed.

Lemma dict_delete_reports (classroom_id : Z) (db : ClassroomDict) :
  (store_delete_classroom classroom_id db).1 = false ↔ rooms db !! classroom_id = None.
Proof. simpl. by destruct (rooms db !! classroom_id). Qed.

#[global] Instance ClassroomDict_noop : FailedWriteIsNoop ClassroomDict.
Proof.
  split.
  - intros id n l c e db. simpl. by destruct (rooms db !! id).
  - intros id db. simpl. by destruct (rooms db !! id).
Qed.

(** ** The claims at concrete requests *)

Example equipment_projector_only :
  submitted_equipment true false = {[ "projector" := true ]}
  ∧ submitted_equipment true false !! "whiteboard" = None.
Proof. split; reflexivity. Qed.

Lemma admin_endpoint_rejects_witness :
  admin_only (POST_classrooms_delete 1) = true
  ∧ (get_current_user Demo.anonymous).1 = Returned None
  ∧ app (POST_classrooms_delete 1) Demo.anonymous =
      (Raised (mkHTTPException 401 "로그인이 필요합니다."),
       (get_current_user Demo.anonymous).2)
  ∧ (get_current_user Demo.as_bob).1 =
      Returned (Some {[ "user_id" := "bob"; "role" := "Student" ]})
  ∧ app (POST_classrooms_delete 1) Demo.as_bob =
      (Raised (mkHTTPException 403 "관리자 권한이 필요합니다."),
       (get_current_user Demo.as_bob).2).
Proof.
  split; [reflexivity|]. split; [reflexivity|]. split.
  - apply (admin_endpoint_rejects (POST_classrooms_delete 1) Demo.anonymous);
      reflexivity.
  - split; [reflexivity|].
    apply (admin_endpoint_rejects (POST_classrooms_delete 1) Demo.as_bob)
      with (d := {[ "user_id" := "bob"; "role" := "Student" ]});
      [reflexivity | reflexivity | vm_compute; discriminate].
Defined.

Lemma unauthorized_write_leaves_classrooms_witness :
  admin_write (POST_classrooms_create "Lab2" "Bldg B" 10 true true) = true
  ∧ (∃ d, (get_current_user Demo.as_bob).1 = Returned (Some d) ∧
          d !! "role" ≠ Some "Admin")
  ∧ ∃ e t,
      (app (POST_classrooms_create "Lab2" "Bldg B" 10 true true) Demo.as_bob).1 = Raised e ∧
      (exc_status_code e = 401 ∨ exc_status_code e = 403) ∧
      classroom_db (app (POST_classrooms_create "Lab2" "Bldg B" 10 true true) Demo.as_bob).2 =
        classroom_db Demo.as_bob ∧
      calls (app (POST_classrooms_create "Lab2" "Bldg B" 10 true true) Demo.as_bob).2 =
        calls Demo.as_bob ++ t ∧
      Forall (λ c, is_classroom_call c = false) t.
Proof.
  assert (∃ d, (get_current_user Demo.as_bob).1 = Returned (Some d) ∧
               d !! "role" ≠ Some "Admin") as Hbob.
  { exists {[ "user_id" := "bob"; "role" := "Student" ]}.
    split; [reflexivity | vm_compute; discriminate]. }
  split; [reflexivity|]. split; [exact Hbob|].
  apply (unauthorized_write_leaves_classrooms
           (POST_classrooms_create "Lab2" "Bldg B" 10 true true) Demo.as_bob);
    [reflexivity | right; exact Hbob].
Defined.

(** The claim C2 as written fails: alice logs in as Admin, so her session
    records the role Admin; her role in the User Store then changes to
    Student.  Under the unchanged session the guards see the role Student and
    the admin-only endpoint answers 403, where the claim has the request
    still authorized as Admin. *)
Lemma session_role_is_not_consulted :
  (post_login "alice" "pw1" Demo.anonymous).1 = Returned (RedirectResponse "/" 303)
  ∧ session Demo.after_login !! "role" = Some "Admin"
  ∧ (app GET_classrooms_create Demo.after_login).1 =
      Returned (TemplateResponse "classroom_form.html"
         {[ "request" := CRequest;
            "user" := CDict {[ "user_id" := "alice"; "role" := "Admin" ]};
            "classroom" := CNone;
            "mode" := CStr "create" ]})
  ∧ session Demo.after_demotion = session Demo.after_login
  ∧ session Demo.after_demotion !! "role" = Some "Admin"
  ∧ (require_auth Demo.after_demotion).1 =
      Returned {[ "user_id" := "alice"; "role" := "Student" ]}
  ∧ (app GET_classrooms_create Demo.after_demotion).1 =
      Raised (mkHTTPException 403 "관리자 권한이 필요합니다.").
Proof. repeat split; reflexivity. Qed.

Lemma guards_use_store_role_witness :
  session Demo.after_demotion !! "user_id" = Some "alice"
  ∧ session Demo.after_demotion !! "role" = Some "Admin"
  ∧ store_get_user "alice" (user_db Demo.after_demotion) =
      Some (mkUser "alice" "pw1" "Student")
  ∧ (require_auth Demo.after_demotion).1 =
      Returned {[ "user_id" := "alice"; "role" := "Student" ]}
  ∧ (require_admin Demo.after_demotion).1 =
      Raised (mkHTTPException 403 "관리자 권한이 필요합니다.").
Proof.
  split; [reflexivity|]. split; [reflexivity|]. split; [reflexivity|].
  destruct (guards_use_store_role Demo.after_demotion "alice"
              (mkUser "alice" "pw1" "Student")) as (Hauth & _ & Hadmin);
    [reflexivity | discriminate | reflexivity |].
  split; [exact Hauth|]. apply Hadmin. simpl. discriminate.
Defined.

Lemma post_login_failure_uniform_witness :
  login_fails "nobody" "pw1" Demo.anonymous
  ∧ login_fails "alice" "wrong" Demo.anonymous
  ∧ (post_login "nobody" "pw1" Demo.anonymous).1 =
      Returned (TemplateResponse "login.html"
                  {[ "request" := CRequest;
                     "error_message" := CStr "ID 또는 비밀번호가 올바르지 않습니다." ]})
  ∧ (post_login "nobody" "pw1" Demo.anonymous).1 =
      (post_login "alice" "wrong" Demo.anonymous).1
  ∧ session (post_login "nobody" "pw1" Demo.anonymous).2 = session Demo.anonymous.
Proof.
  assert (login_fails "nobody" "pw1" Demo.anonymous) as H1 by (vm_compute; exact I).
  assert (login_fails "alice" "wrong" Demo.anonymous) as H2
    by (vm_compute; discriminate).
  split; [exact H1|]. split; [exact H2|].
  exact (post_login_failure_uniform Demo.anonymous Demo.anonymous
           "nobody" "pw1" "alice" "wrong" H1 H2).
Defined.

Lemma post_login_success_witness :
  store_get_user "alice" (user_db Demo.anonymous) = Some Demo.alice
  ∧ u_password Demo.alice = "pw1"
  ∧ (post_login "alice" "pw1" Demo.anonymous).1 = Returned (RedirectResponse "/" 303)
  ∧ session (post_login "alice" "pw1" Demo.anonymous).2 =
      <[ "role" := u_role Demo.alice ]> (<[ "user_id" := "alice" ]> (session Demo.anonymous))
  ∧ session (post_login "alice" "pw1" Demo.anonymous).2 !! "user_id" = Some "alice"
  ∧ session (post_login "alice" "pw1" Demo.anonymous).2 !! "role" =
      Some (u_role Demo.alice).
Proof.
  split; [reflexivity|]. split; [reflexivity|].
  apply (post_login_success Demo.anonymous "alice" "pw1" Demo.alice); reflexivity.
Defined.

Lemma post_register_outcome_witness :
  (store_register_user "alice" "pw9" Student (user_db Demo.anonymous)).1 = false
  ∧ (∃ resp, (post_register "alice" "pw9" Student Demo.anonymous).1 = Returned resp ∧
       resp = TemplateResponse "register.html"
                {[ "request" := CRequest;
                   "error_message" :=
                     CStr ("'" +:+ "alice" +:+ "'는 이미 사용 중인 ID입니다.") ]} ∧
       response_status resp = 200 ∧ is_redirect resp = false)
  ∧ (store_register_user "carol" "pw3" Student (user_db Demo.anonymous)).1 = true
  ∧ (post_register "carol" "pw3" Student Demo.anonymous).1 =
      Returned (RedirectResponse "/login" 303).
Proof.
  split; [reflexivity|]. split.
  - apply (post_register_outcome Demo.anonymous "alice" "pw9" Student);
      [discriminate | discriminate | reflexivity].
  - split; [reflexivity|].
    apply (post_register_outcome Demo.anonymous "carol" "pw3" Student);
      [discriminate | discriminate | reflexivity].
Defined.

Lemma equipment_holds_true_flags_witness :
  (require_admin Demo.as_alice).1 =
    Returned {[ "user_id" := "alice"; "role" := "Admin" ]}
  ∧ ∃ equipment : Equipment,
      (∀ key value, equipment !! key = Some value ↔
         value = true ∧
         ((key = "projector" ∧ true = true) ∨ (key = "whiteboard" ∧ false = true)))
      ∧ calls (create_classroom_post "Lab2" "Bldg B" 10 true false Demo.as_alice).2 =
          calls (require_admin Demo.as_alice).2 ++
            [CallCreateClassroom "Lab2" "Bldg B" 10 equipment]
      ∧ classroom_db (create_classroom_post "Lab2" "Bldg B" 10 true false Demo.as_alice).2 =
          (store_create_classroom "Lab2" "Bldg B" 10 equipment
             (classroom_db Demo.as_alice)).2
      ∧ calls (edit_classroom_post 1 "Lab2" "Bldg B" 10 true false Demo.as_alice).2 =
          calls (require_admin Demo.as_alice).2 ++
            [CallUpdateClassroom 1 "Lab2" "Bldg B" 10 equipment]
      ∧ classroom_db (edit_classroom_post 1 "Lab2" "Bldg B" 10 true false Demo.as_alice).2 =
          (store_update_classroom 1 "Lab2" "Bldg B" 10 equipment
             (classroom_db Demo.as_alice)).2.
Proof.
  split; [reflexivity|].
  apply (equipment_holds_true_flags Demo.as_alice
           {[ "user_id" := "alice"; "role" := "Admin" ]} 1 "Lab2" "Bldg B" 10 true false).
  reflexivity.
Defined.

Lemma edit_delete_not_found_witness :
  (require_admin Demo.as_alice).1 =
    Returned {[ "user_id" := "alice"; "role" := "Admin" ]}
  ∧ rooms (classroom_db Demo.as_alice) !! 7 = None
  ∧ (edit_classroom_post 7 "Lab7" "Bldg C" 12 false true Demo.as_alice).1 =
      Raised (mkHTTPException 404 "강의실을 찾을 수 없습니다.")
  ∧ classroom_db (edit_classroom_post 7 "Lab7" "Bldg C" 12 false true Demo.as_alice).2 =
      classroom_db Demo.as_alice
  ∧ (delete_classroom_post 7 Demo.as_alice).1 =
      Raised (mkHTTPException 404 "강의실을 찾을 수 없습니다.")
  ∧ classroom_db (delete_classroom_post 7 Demo.as_alice).2 = classroom_db Demo.as_alice
  ∧ rooms (classroom_db Demo.as_alice) !! 1 = Some Demo.lab1
  ∧ (edit_classroom_post 1 "Lab1" "Bldg C" 12 false true Demo.as_alice).1 =
      Returned (RedirectResponse "/classrooms" 303)
  ∧ (delete_classroom_post 1 Demo.as_alice).1 =
      Returned (RedirectResponse "/classrooms" 303).
Proof.
  assert ((require_admin Demo.as_alice).1 =
          Returned {[ "user_id" := "alice"; "role" := "Admin" ]}) as Hadmin
    by reflexivity.
  split; [exact Hadmin|]. split; [reflexivity|].
  destruct (edit_delete_not_found Demo.as_alice
              {[ "user_id" := "alice"; "role" := "Admin" ]} 7 "Lab7" "Bldg C" 12
              false true Hadmin) as (Hedit & _ & Hdelete & _).
  destruct (edit_delete_not_found Demo.as_alice
              {[ "user_id" := "alice"; "role" := "Admin" ]} 1 "Lab1" "Bldg C" 12
              false true Hadmin) as (_ & Hedit1 & _ & Hdelete1).
  destruct Hedit as [He1 He2]; [reflexivity|].
  destruct Hdelete as [Hd1 Hd2]; [reflexivity|].
  split; [exact He1|]. split; [exact He2|]. split; [exact Hd1|]. split; [exact Hd2|].
  split; [reflexivity|]. split; [apply Hedit1 | apply Hdelete1]; reflexivity.
Defined.

(** The end-to-end scenario: alice registers as Admin, logs in, creates Lab1
    with a projector, sees it listed, deletes it, and sees it gone. *)
Example register_login_create_list_delete :
  (serve [POST_register "alice" "pw1" Admin;
          POST_login "alice" "pw1";
          POST_classrooms_create "Lab1" "Bldg A" 30 true false;
          GET_classrooms;
          POST_classrooms_delete 1;
          GET_classrooms] Demo.fresh).1 =
  [Returned (RedirectResponse "/login" 303);
   Returned (RedirectResponse "/" 303);
   Returned (RedirectResponse "/classrooms" 303);
   Returned (TemplateResponse "classrooms.html"
      {[ "request" := CRequest;
         "classrooms" := CClassrooms [(1, Demo.lab1)];
         "user" := CDict {[ "user_id" := "alice"; "role" := "Admin" ]} ]});
   Returned (RedirectResponse "/classrooms" 303);
   Returned (TemplateResponse "classrooms.html"
      {[ "request" := CRequest;
         "classrooms" := CClassrooms [];
         "user" := CDict {[ "user_id" := "alice"; "role" := "Admin" ]} ]})].
Proof. vm_compute. reflexivity. Qed.


(** ** The handlers the claims leave out *)

Section HandlerFacts.
Context {U C : Type} `{!UserStore U} `{!ClassroomStore C}.
Implicit Types (w : World U C) (d : Dict).

(** The guard answers from the session's user_id and the User Store alone. *)
Lemma get_current_user_indep w w' :
  session w !! "user_id" = session w' !! "user_id" →
  user_db w = user_db w' →
  (get_current_user w).1 = (get_current_user w').1.
Proof.
  intros Hs Hu. rewrite !get_current_user_unfold, <- Hs, <- Hu.
  destruct (session w !! "user_id") as [uid|]; [|done].
  by destruct (truthy_str uid).
Qed.

(** The guard logs at most the one user lookup. *)
Lemma get_current_user_calls w :
  ∃ t, calls (get_current_user w).2 = calls w ++ t ∧
       Forall (λ c, is_lookup_call c = true) t.
Proof.
  rewrite get_current_user_unfold.
  destruct (session w !! "user_id") as [uid|].
  - destruct (truthy_str uid); simpl.
    + exists [CallGetUser uid]. split; [done|]. by constructor.
    + exists []. by rewrite app_nil_r.
  - exists []. by rewrite app_nil_r.
Qed.

Lemma get_current_user_pair w :
  ∃ o, get_current_user w = (Returned o, (get_current_user w).2).
Proof.
  destruct (get_current_user_returns w) as [o Ho]. exists o.
  destruct (get_current_user w) as [x w']. simpl in *. by subst.
Qed.

(** What [require_auth] does, by what the guard found. *)
Lemma require_auth_cases w :
  ((get_current_user w).1 = Returned None ∧
   require_auth w =
     (Raised (mkHTTPException 401 "로그인이 필요합니다."), (get_current_user w).2))
  ∨ (∃ d, (get_current_user w).1 = Returned (Some d) ∧
          require_auth w = (Returned d, (get_current_user w).2)).
Proof.
  destruct (get_current_user_returns w) as [[d|] Hcu].
  - right. exists d. split; [done|]. by apply require_auth_Some.
  - left. split; [done|]. by apply require_auth_None.
Qed.

(** What [require_admin] does, by what the guard found. *)
Lemma require_admin_cases w :
  ((get_current_user w).1 = Returned None ∧
   require_admin w =
     (Raised (mkHTTPException 401 "로그인이 필요합니다."), (get_current_user w).2))
  ∨ (∃ d, (get_current_user w).1 = Returned (Some d) ∧ d !! "role" ≠ Some "Admin" ∧
          require_admin w =
            (Raised (mkHTTPException 403 "관리자 권한이 필요합니다."),
             (get_current_user w).2))
  ∨ (∃ d, (get_current_user w).1 = Returned (Some d) ∧ d !! "role" = Some "Admin" ∧
          require_admin w = (Returned d, (get_current_user w).2)).
Proof.
  destruct (get_current_user_returns w) as [[d|] Hcu].
  - destruct (decide (d !! "role" = Some "Admin")) as [Hr|Hr].
    + right. right. exists d. split; [done|]. split; [done|].
      by apply require_admin_Admin.
    + right. left. exists d. split; [done|]. split; [done|].
      by apply require_admin_not_Admin with d.
  - left. split; [done|]. by apply require_admin_None.
Qed.

(** A second look at the current user, later in the same request, finds what
    the first look found, as long as the session and the User Store were not
    written in between. *)
Lemma get_current_user_again w w' :
  session w' = session w →
  user_db w' = user_db w →
  (get_current_user w').1 = (get_current_user w).1.
Proof. intros Hs Hu. apply get_current_user_indep; by rewrite ?Hs. Qed.

Lemma truthy_opt_dict_current w d :
  (get_current_user w).1 = Returned (Some d) → truthy_opt_dict (Some d) = true.
Proof.
  intros H. destruct (get_current_user_Some _ _ H) as (uid & u & _ & _ & _ & -> & _).
  apply user_dict_truthy.
Qed.

Lemma root_None w :
  (get_current_user w).1 = Returned None →
  root w = (Returned (RedirectResponse "/login" 302), (get_current_user w).2).
Proof.
  intros Hn. destruct (get_current_user_pair w) as [o Ho]. unfold root. unfold_monad.
  rewrite Ho in Hn |- *. simpl in Hn. by injection Hn as ->.
Qed.

Lemma root_Some w d :
  (get_current_user w).1 = Returned (Some d) →
  root w =
    (Returned (TemplateResponse "index.html"
                 {[ "request" := CRequest; "user" := CDict d ]}),
     (get_current_user w).2).
Proof.
  intros Hd. destruct (get_current_user_pair w) as [o Ho]. unfold root. unfold_monad.
  pose proof (truthy_opt_dict_current _ _ Hd) as Ht.
  rewrite Ho in Hd |- *. simpl in Hd. injection Hd as ->. by rewrite Ht.
Qed.
End HandlerFacts.

Section OtherHandlers.
Context {U C : Type} `{!UserStore U} `{!ClassroomStore C}.
Implicit Types (w : World U C) (d : Dict).

(** X1. GET /: with no current user the handler redirects to /login with
    status 302; with a current user it renders index.html with that user's
    dict, whose role is the User Store's.  Either way the only thing done is
    the guard's user lookup. *)
Theorem root_page w :
  ((get_current_user w).1 = Returned None →
     root w = (Returned (RedirectResponse "/login" 302), (get_current_user w).2))
  ∧ (∀ d, (get_current_user w).1 = Returned (Some d) →
       root w =
         (Returned (TemplateResponse "index.html"
                      {[ "request" := CRequest; "user" := CDict d ]}),
          (get_current_user w).2)).
Proof. split; [apply root_None | apply root_Some]. Qed.

(** X2. GET /register and GET /login: a browser that is already logged in is
    redirected to / with status 302; otherwise the empty form is rendered,
    with no error message. *)
Theorem forms_redirect_when_logged_in w :
  (∀ d, (get_current_user w).1 = Returned (Some d) →
     (get_register_form w).1 = Returned (RedirectResponse "/" 302) ∧
     (get_login_form w).1 = Returned (RedirectResponse "/" 302))
  ∧ ((get_current_user w).1 = Returned None →
     (get_register_form w).1 =
       Returned (TemplateResponse "register.html"
                   {[ "request" := CRequest; "error_message" := CNone ]}) ∧
     (get_login_form w).1 =
       Returned (TemplateResponse "login.html"
                   {[ "request" := CRequest; "error_message" := CNone ]})).
Proof.
  destruct (get_current_user_pair w) as [o Ho].
  unfold get_register_form, get_login_form. unfold_monad. split.
  - intros d Hd. pose proof (truthy_opt_dict_current _ _ Hd) as Ht.
    rewrite Ho in Hd |- *. simpl in Hd. injection Hd as ->. by rewrite Ht.
  - intros Hn. rewrite Ho in Hn |- *. simpl in Hn. by injection Hn as ->.
Qed.

(** X3. GET /classrooms: with no current user the handler raises 401 and has
    not asked the Classroom Store anything.  With a current user of any role,
    Student included, it renders classrooms.html with the store's list and
    the user's dict; it looks the user up a second time to fill the page, and
    leaves session and stores as they were. *)
Theorem list_classrooms_any_role w :
  ((get_current_user w).1 = Returned None →
     list_classrooms w =
       (Raised (mkHTTPException 401 "로그인이 필요합니다."), (get_current_user w).2))
  ∧ (∀ d, (get_current_user w).1 = Returned (Some d) →
       (list_classrooms w).1 =
         Returned (TemplateResponse "classrooms.html"
                     {[ "request" := CRequest;
                        "classrooms" :=
                          CClassrooms (store_get_all_classrooms (classroom_db w));
                        "user" := CDict d ]})
       ∧ session (list_classrooms w).2 = session w
       ∧ user_db (list_classrooms w).2 = user_db w
       ∧ classroom_db (list_classrooms w).2 = classroom_db w).
Proof.
  destruct (get_current_user_world w) as (Hs & Hu & Hc & _).
  unfold list_classrooms. split.
  - intros Hn. apply guarded_raises. by apply require_auth_None.
  - intros d Hd. erewrite guarded_returns by (by apply require_auth_Some).
    unfold get_all_classrooms. unfold_monad.
    set (w2 := log_call CallGetAllClassrooms _ _ _).
    assert ((get_current_user w2).1 = Returned (Some d)) as Hd2.
    { rewrite <- Hd. apply get_current_user_again; by subst w2. }
    destruct (get_current_user_world w2) as (Hs2 & Hu2 & Hc2 & _).
    destruct (get_current_user w2) as [o2 w3]. simpl in *. subst o2. simpl.
    rewrite Hc. repeat split; congruence.
Qed.

(** X4. GET /classrooms/create for an Admin renders classroom_form.html in
    create mode, with no classroom and with the admin's own dict. *)
Theorem create_classroom_form_admin w d :
  (get_current_user w).1 = Returned (Some d) →
  d !! "role" = Some "Admin" →
  (create_classroom_form w).1 =
    Returned (TemplateResponse "classroom_form.html"
                {[ "request" := CRequest;
                   "user" := CDict d;
                   "classroom" := CNone;
                   "mode" := CStr "create" ]}).
Proof.
  intros Hd Ha. destruct (get_current_user_world w) as (Hs & Hu & _).
  unfold create_classroom_form.
  erewrite guarded_returns by (by apply require_admin_Admin).
  unfold_monad.
  assert ((get_current_user (get_current_user w).2).1 = Returned (Some d)) as Hd2.
  { rewrite <- Hd. by apply get_current_user_again. }
  destruct (get_current_user (get_current_user w).2) as [o2 w3]. simpl in *.
  by subst o2.
Qed.

(** X5. GET /classrooms/{id}/edit for an Admin: when the Classroom Store has
    no classroom with that id the handler raises 404; when it has one, the
    handler renders classroom_form.html in edit mode with that classroom, its
    id and the admin's dict.  The Classroom Store is only read. *)
Theorem edit_classroom_form_admin w d (classroom_id : Z) :
  (get_current_user w).1 = Returned (Some d) →
  d !! "role" = Some "Admin" →
  (store_get_classroom classroom_id (classroom_db w) = None →
     (edit_classroom_form classroom_id w).1 =
       Raised (mkHTTPException 404 "강의실을 찾을 수 없습니다."))
  ∧ (∀ classroom, store_get_classroom classroom_id (classroom_db w) = Some classroom →
       (edit_classroom_form classroom_id w).1 =
         Returned (TemplateResponse "classroom_form.html"
                     {[ "request" := CRequest;
                        "user" := CDict d;
                        "classroom" := CClassroom classroom;
                        "classroom_id" := CInt classroom_id;
                        "mode" := CStr "edit" ]}))
  ∧ classroom_db (edit_classroom_form classroom_id w).2 = classroom_db w.
Proof.
  intros Hd Ha. destruct (get_current_user_world w) as (Hs & Hu & Hc & _).
  unfold edit_classroom_form.
  erewrite guarded_returns by (by apply require_admin_Admin).
  unfold get_classroom. unfold_monad. rewrite Hc.
  set (w2 := log_call (CallGetClassroom classroom_id) _ _ _).
  assert ((get_current_user w2).1 = Returned (Some d)) as Hd2.
  { rewrite <- Hd. apply get_current_user_again; by subst w2. }
  destruct (get_current_user_world w2) as (_ & _ & Hc2 & _).
  destruct (store_get_classroom classroom_id (classroom_db w)) as [c|].
  - destruct (get_current_user w2) as [o2 w3]. simpl in *. subst o2.
    split; [done|]. split; [by intros c' [= <-]|]. done.
  - split; [done|]. split; [done|]. by subst w2.
Qed.

End OtherHandlers.

(** ** Frame rules for the handler monad *)

Section Frames.
Context {U C : Type} `{!UserStore U} `{!ClassroomStore C}.
Implicit Types (w : World U C) (d : Dict).

Lemma keeps_ret {A B} (f : World U C → A) (b : B) : keeps f (mret b : M U C B).
Proof. by intros w. Qed.

Lemma keeps_raise {A B} (f : World U C → A) e : keeps f (raise e : M U C B).
Proof. by intros w. Qed.

Lemma keeps_bind {A B B'} (f : World U C → A) (m : M U C B) (k : B → M U C B') :
  keeps f m → (∀ b, keeps f (k b)) → keeps f (m ≫= k).
Proof.
  intros Hm Hk w. unfold_monad. specialize (Hm w).
  destruct (m w) as [[b|e] w1]; simpl in *; [|done]. by rewrite Hk.
Qed.

Lemma keeps_session_get {A} (f : World U C → A) key : keeps f (session_get key).
Proof. by intros w. Qed.

Lemma keeps_get_user {A} (f : World U C → A) user_id :
  (∀ w c, f (log_call c (user_db w) (classroom_db w) w) = f w) →
  keeps f (get_user user_id).
Proof. intros Hf w. apply Hf. Qed.

Lemma keeps_get_classroom {A} (f : World U C → A) classroom_id :
  (∀ w c, f (log_call c (user_db w) (classroom_db w) w) = f w) →
  keeps f (get_classroom classroom_id).
Proof. intros Hf w. apply Hf. Qed.

Lemma keeps_get_all_classrooms {A} (f : World U C → A) :
  (∀ w c, f (log_call c (user_db w) (classroom_db w) w) = f w) →
  keeps f get_all_classrooms.
Proof. intros Hf w. apply Hf. Qed.

Lemma keeps_get_current_user {A} (f : World U C → A) :
  (∀ w c, f (log_call c (user_db w) (classroom_db w) w) = f w) →
  keeps f get_current_user.
Proof.
  intros Hf w. rewrite get_current_user_unfold.
  destruct (session w !! "user_id") as [uid|]; [|done].
  destruct (truthy_str uid); [apply Hf | done].
Qed.

Lemma keeps_require_auth {A} (f : World U C → A) :
  (∀ w c, f (log_call c (user_db w) (classroom_db w) w) = f w) →
  keeps f require_auth.
Proof.
  intros Hf w. rewrite <- (keeps_get_current_user f Hf w).
  by destruct (require_auth_cases w) as [[_ ->] | (d & _ & ->)].
Qed.

Lemma keeps_require_admin {A} (f : World U C → A) :
  (∀ w c, f (log_call c (user_db w) (classroom_db w) w) = f w) →
  keeps f require_admin.
Proof.
  intros Hf w. rewrite <- (keeps_get_current_user f Hf w).
  by destruct (require_admin_cases w)
    as [[_ ->] | [(d & _ & _ & ->) | (d & _ & _ & ->)]].
Qed.

(** The three components a store call's log entry does not touch. *)
Lemma log_keeps_session w c : session (log_call c (user_db w) (classroom_db w) w) = session w.
Proof. done. Qed.
Lemma log_keeps_user_db w c : user_db (log_call c (user_db w) (classroom_db w) w) = user_db w.
Proof. done. Qed.
Lemma log_keeps_classroom_db w c :
  classroom_db (log_call c (user_db w) (classroom_db w) w) = classroom_db w.
Proof. done. Qed.

(** Writes to one store keep the other store and the session. *)
Lemma register_user_keeps_session user_id password role :
  keeps (@session U C) (register_user user_id password role).
Proof. intros w. unfold register_user. by destruct (store_register_user _ _ _ _). Qed.

Lemma register_user_keeps_classroom_db user_id password role :
  keeps (@classroom_db U C) (register_user user_id password role).
Proof. intros w. unfold register_user. by destruct (store_register_user _ _ _ _). Qed.

Lemma create_classroom_keeps_session name location capacity equipment :
  keeps (@session U C) (create_classroom name location capacity equipment).
Proof. intros w. unfold create_classroom. by destruct (store_create_classroom _ _ _ _ _). Qed.

Lemma create_classroom_keeps_user_db name location capacity equipment :
  keeps (@user_db U C) (create_classroom name location capacity equipment).
Proof. intros w. unfold create_classroom. by destruct (store_create_classroom _ _ _ _ _). Qed.

Lemma update_classroom_keeps_session classroom_id name location capacity equipment :
  keeps (@session U C) (update_classroom classroom_id name location capacity equipment).
Proof.
  intros w. unfold update_classroom. by destruct (store_update_classroom _ _ _ _ _ _).
Qed.

Lemma update_classroom_keeps_user_db classroom_id name location capacity equipment :
  keeps (@user_db U C) (update_classroom classroom_id name location capacity equipment).
Proof.
  intros w. unfold update_classroom. by destruct (store_update_classroom _ _ _ _ _ _).
Qed.

Lemma delete_classroom_keeps_session classroom_id :
  keeps (@session U C) (delete_classroom classroom_id).
Proof. intros w. unfold delete_classroom. by destruct (store_delete_classroom _ _). Qed.

Lemma delete_classroom_keeps_user_db classroom_id :
  keeps (@user_db U C) (delete_classroom classroom_id).
Proof. intros w. unfold delete_classroom. by destruct (store_delete_classroom _ _). Qed.

Lemma session_set_keeps_user_db key value : keeps (@user_db U C) (session_set key value).
Proof. by intros w. Qed.
Lemma session_set_keeps_classroom_db key value :
  keeps (@classroom_db U C) (session_set key value).
Proof. by intros w. Qed.
Lemma session_clear_keeps_user_db : keeps (@user_db U C) session_clear.
Proof. by intros w. Qed.
Lemma session_clear_keeps_classroom_db : keeps (@classroom_db U C) session_clear.
Proof. by intros w. Qed.
End Frames.

Create HintDb frame discriminated.
#[export] Hint Resolve keeps_ret keeps_raise keeps_session_get
  register_user_keeps_session register_user_keeps_classroom_db
  create_classroom_keeps_session create_classroom_keeps_user_db
  update_classroom_keeps_session update_classroom_keeps_user_db
  delete_classroom_keeps_session delete_classroom_keeps_user_db
  session_set_keeps_user_db session_set_keeps_classroom_db
  session_clear_keeps_user_db session_clear_keeps_classroom_db : frame.
#[export] Hint Resolve log_keeps_session log_keeps_user_db log_keeps_classroom_db : frame.

(** Walk down a handler: split each bind, case on each test. *)
Ltac frame_step :=
  first
    [ apply keeps_get_current_user; intros ? ?; reflexivity
    | apply keeps_require_auth; intros ? ?; reflexivity
    | apply keeps_require_admin; intros ? ?; reflexivity
    | apply keeps_get_user; intros ? ?; reflexivity
    | apply keeps_get_classroom; intros ? ?; reflexivity
    | apply keeps_get_all_classrooms; intros ? ?; reflexivity
    | apply keeps_bind; [|intros ?]
    | solve [auto with frame]
    | match goal with
      | |- keeps _ (match ?x with _ => _ end) => destruct x
      end ].

Ltac frame := cbv zeta; repeat frame_step.

Section FrameTheorems.
Context {U C : Type} `{!UserStore U} `{!ClassroomStore C}.
Implicit Types (w : World U C) (d : Dict).

Lemma app_keeps_classroom_db (r : Request) :
  admin_write r = false → keeps (@classroom_db U C) (app r : M U C Response).
Proof.
  intros Hr. destruct r; try discriminate Hr; simpl;
    unfold get_register_form, post_register, get_login_form, post_login, logout,
      root, list_classrooms, create_classroom_form, edit_classroom_form; frame.
Qed.

Lemma app_keeps_user_db (r : Request) :
  is_register r = false → keeps (@user_db U C) (app r : M U C Response).
Proof.
  intros Hr. destruct r; try discriminate Hr; simpl;
    unfold get_register_form, get_login_form, post_login, logout,
      root, list_classrooms, create_classroom_form, create_classroom_post,
      edit_classroom_form, edit_classroom_post, delete_classroom_post; frame.
Qed.

Lemma app_keeps_session (r : Request) :
  is_login r = false → is_logout r = false → keeps (@session U C) (app r : M U C Response).
Proof.
  intros Hr Hr'. destruct r; try discriminate Hr; try discriminate Hr'; simpl;
    unfold get_register_form, post_register, get_login_form,
      root, list_classrooms, create_classroom_form, create_classroom_post,
      edit_classroom_form, edit_classroom_post, delete_classroom_post; frame.
Qed.
End FrameTheorems.

Section WhoChangesWhat.
Context {U C : Type} `{!UserStore U} `{!ClassroomStore C}.
Implicit Types (w : World U C) (d : Dict).

(** X7. Whatever the route and the state: if a request leaves the Classroom
    Store different from how it found it, the request went to one of the
    three write endpoints (POST create, edit, delete) and the session's user
    has the role Admin in the User Store. *)
Theorem classroom_change_needs_admin (r : Request) w :
  classroom_db (app r w).2 ≠ classroom_db w →
  admin_write r = true
  ∧ ∃ d, (get_current_user w).1 = Returned (Some d) ∧ d !! "role" = Some "Admin".
Proof.
  intros Hne. destruct (admin_write r) eqn:Hw.
  - split; [done|].
    assert (admin_only r = true) as Ha by (by destruct r).
    destruct (get_current_user_world w) as (_ & _ & Hc & _).
    destruct (require_admin_cases w)
      as [[_ Hra] | [(d & _ & _ & Hra) | (d & Hd & Hrole & _)]].
    + rewrite (admin_only_raises r w _ _ Ha Hra) in Hne. by destruct Hne.
    + rewrite (admin_only_raises r w _ _ Ha Hra) in Hne. by destruct Hne.
    + by exists d.
  - destruct Hne. by apply app_keeps_classroom_db.
Qed.

(** X8. If a request leaves the User Store different from how it found it,
    the request was a POST /register with a non-empty user_id and a non-empty
    password.  No other route writes users, and no route ever changes or
    removes one through anything but the store's register. *)
Theorem user_change_needs_register (r : Request) w :
  user_db (app r w).2 ≠ user_db w →
  ∃ user_id password role,
    r = POST_register user_id password role ∧ user_id ≠ "" ∧ password ≠ "".
Proof.
  intros Hne. destruct (is_register r) eqn:Hr.
  - destruct r; try discriminate Hr. exists user_id, password, role.
    split; [done|]. simpl in Hne. unfold post_register in Hne.
    rewrite <- !truthy_str_true.
    destruct (truthy_str user_id); [|by destruct Hne].
    destruct (truthy_str password); [done|by destruct Hne].
  - destruct Hne. by apply app_keeps_user_db.
Qed.

(** X9. If a request leaves the session different from how it found it, the
    request was GET /logout, or a POST /login whose user exists and whose
    password matches.  Registration, failed logins and every classroom route
    leave the cookie alone. *)
Theorem session_change_needs_login_or_logout (r : Request) w :
  session (app r w).2 ≠ session w →
  r = GET_logout
  ∨ ∃ user_id password user,
      r = POST_login user_id password ∧
      store_get_user user_id (user_db w) = Some user ∧
      u_password user = password.
Proof.
  intros Hne. destruct (is_logout r) eqn:Hlo; [left; by destruct r|].
  destruct (is_login r) eqn:Hli.
  - right. destruct r; try discriminate Hli. exists user_id, password.
    simpl in Hne. unfold post_login, get_user in Hne. unfold_monad.
    destruct (store_get_user user_id (user_db w)) as [u|]; [|by destruct Hne].
    exists u. split; [done|]. split; [done|].
    destruct (decide (u_password u = password)) as [|Hp]; [done|].
    rewrite bool_decide_eq_false_2 in Hne by done. by destruct Hne.
  - destruct Hne. by apply app_keeps_session.
Qed.

(** X11. GET /logout answers with a redirect to /login with status 302 and
    empties the session whatever it held, without touching the stores.
    After it there is no current user, so every route behind [require_auth]
    or [require_admin] raises 401 and GET / redirects to /login. *)
Theorem logout_ends_session w :
  logout w = (Returned (RedirectResponse "/login" 302), with_session ∅ w)
  ∧ get_current_user (logout w).2 = (Returned None, (logout w).2)
  ∧ (∀ r, requires_login r = true →
       app r (logout w).2 =
         (Raised (mkHTTPException 401 "로그인이 필요합니다."), (logout w).2))
  ∧ root (logout w).2 =
      (Returned (RedirectResponse "/login" 302), (logout w).2).
Proof.
  assert (logout w = (Returned (RedirectResponse "/login" 302), with_session ∅ w))
    as Hl by done.
  assert (get_current_user (logout w).2 = (Returned None, (logout w).2)) as Hcu.
  { rewrite Hl. rewrite get_current_user_unfold. simpl. by rewrite lookup_empty. }
  split; [done|]. split; [done|]. split.
  - intros r Hr.
    assert ((get_current_user (logout w).2).1 = Returned None) as Hn by (by rewrite Hcu).
    pose proof (require_auth_None _ Hn) as Hauth.
    pose proof (require_admin_None _ Hn) as Hadm.
    rewrite Hcu in Hauth, Hadm. change (_ , _).2 with (logout w).2 in Hauth, Hadm.
    destruct (admin_only r) eqn:Ha; [by apply admin_only_raises|].
    destruct r; try discriminate Hr; try discriminate Ha.
    unfold app, list_classrooms. by apply guarded_raises.
  - unfold root. unfold_monad. by rewrite Hcu.
Qed.

(** X12. After a successful POST /login with a non-empty user_id, the session
    yields that user with the role of the store's record: the next GET /
    renders index.html for them. *)
Theorem login_starts_session w (user_id password : string) (user : User) :
  store_get_user user_id (user_db w) = Some user →
  u_password user = password →
  user_id ≠ "" →
  (get_current_user (post_login user_id password w).2).1 =
    Returned (Some {[ "user_id" := user_id; "role" := u_role user ]})
  ∧ (root (post_login user_id password w).2).1 =
      Returned (TemplateResponse "index.html"
                  {[ "request" := CRequest;
                     "user" := CDict {[ "user_id" := user_id; "role" := u_role user ]} ]}).
Proof.
  intros Hu Hp Hne.
  assert ((get_current_user (post_login user_id password w).2).1 =
          Returned (Some {[ "user_id" := user_id; "role" := u_role user ]})) as Hcu.
  { rewrite get_current_user_unfold.
    unfold post_login, get_user. unfold_monad. rewrite Hu.
    rewrite bool_decide_eq_true_2 by done. simpl.
    rewrite lookup_insert_ne, lookup_insert_eq by done.
    apply truthy_str_true in Hne as ->. by rewrite Hu. }
  split; [done|]. by rewrite (root_Some _ _ Hcu).
Qed.

End WhoChangesWhat.

(** ** Which store calls a handler makes *)

Section Lookups.
Context {U C : Type} `{!UserStore U} `{!ClassroomStore C}.
Implicit Types (w : World U C) (d : Dict).

Lemma only_looks_up_silent {B} (m : M U C B) :
  (∀ w, calls (m w).2 = calls w) → only_looks_up m.
Proof. intros Hm w. exists []. by rewrite app_nil_r. Qed.

Lemma only_looks_up_one {B} (m : M U C B) (c : StoreCall) :
  is_lookup_call c = true →
  (∀ w, calls (m w).2 = calls w ++ [c]) → only_looks_up m.
Proof. intros Hc Hm w. exists [c]. split; [done|]. by constructor. Qed.

Lemma only_looks_up_bind {B B'} (m : M U C B) (k : B → M U C B') :
  only_looks_up m → (∀ b, only_looks_up (k b)) → only_looks_up (m ≫= k).
Proof.
  intros Hm Hk w. unfold_monad. destruct (Hm w) as (t1 & Ht1 & Hall1).
  destruct (m w) as [[b|e] w1]; simpl in *; [|by exists t1].
  destruct (Hk b w1) as (t2 & Ht2 & Hall2). exists (t1 ++ t2).
  split; [by rewrite Ht2, Ht1, app_assoc|]. by apply Forall_app.
Qed.

Lemma only_looks_up_get_current_user : only_looks_up (get_current_user : M U C _).
Proof. intros w. apply get_current_user_calls. Qed.

Lemma only_looks_up_require_auth : only_looks_up (require_auth : M U C _).
Proof.
  intros w. destruct (get_current_user_calls w) as (t & Ht & Hall). exists t.
  by destruct (require_auth_cases w) as [[_ ->] | (d & _ & ->)].
Qed.

Lemma only_looks_up_require_admin : only_looks_up (require_admin : M U C _).
Proof.
  intros w. destruct (get_current_user_calls w) as (t & Ht & Hall). exists t.
  by destruct (require_admin_cases w)
    as [[_ ->] | [(d & _ & _ & ->) | (d & _ & _ & ->)]].
Qed.

Lemma only_looks_up_get_classroom classroom_id :
  only_looks_up (get_classroom classroom_id : M U C _).
Proof. by apply only_looks_up_one with (CallGetClassroom classroom_id). Qed.

Lemma only_looks_up_get_all_classrooms :
  only_looks_up (get_all_classrooms : M U C _).
Proof. by apply only_looks_up_one with CallGetAllClassrooms. Qed.
End Lookups.

Ltac lookups_step :=
  first
    [ apply only_looks_up_get_current_user
    | apply only_looks_up_require_auth
    | apply only_looks_up_require_admin
    | apply only_looks_up_get_classroom
    | apply only_looks_up_get_all_classrooms
    | apply only_looks_up_bind; [|intros ?]
    | apply only_looks_up_silent; intros ?; reflexivity
    | match goal with
      | |- only_looks_up (match ?x with _ => _ end) => destruct x
      end ].

Section ReadOnlyRoutes.
Context {U C : Type} `{!UserStore U} `{!ClassroomStore C}.
Implicit Types (w : World U C) (d : Dict).

(** X10. Every GET route is read-only: it leaves the User Store and the
    Classroom Store as they were, and every call it makes into the
    persistence modules is a lookup ([get_user], [get_classroom],
    [get_all_classrooms]); none registers a user or creates, updates or
    deletes a classroom. *)
Theorem get_routes_only_look_up (r : Request) w :
  is_get r = true →
  user_db (app r w).2 = user_db w
  ∧ classroom_db (app r w).2 = classroom_db w
  ∧ ∃ t, calls (app r w).2 = calls w ++ t ∧
         Forall (λ c, is_lookup_call c = true) t.
Proof.
  intros Hr. split; [|split].
  - apply app_keeps_user_db. by destruct r.
  - apply app_keeps_classroom_db. by destruct r.
  - revert w. change (only_looks_up (app r : M U C Response)).
    destruct r; try discriminate Hr; simpl;
      unfold get_register_form, get_login_form, logout, root, list_classrooms,
        create_classroom_form, edit_classroom_form;
      repeat lookups_step.
Qed.
End ReadOnlyRoutes.

(** ** What a handler reads from the session *)

Section RoleBlind.
Context {U C : Type} `{!UserStore U} `{!ClassroomStore C}.
Implicit Types (w : World U C) (d : Dict).

Lemma role_blind_ret {B} (b : B) : role_blind (mret b : M U C B).
Proof. by intros w w' Hw. Qed.

Lemma role_blind_raise {B} e : role_blind (raise e : M U C B).
Proof. by intros w w' Hw. Qed.

Lemma role_blind_bind {B B'} (m : M U C B) (k : B → M U C B') :
  role_blind m → (∀ b, role_blind (k b)) → role_blind (m ≫= k).
Proof.
  intros Hm Hk w w' Hw. unfold_monad. destruct (Hm w w' Hw) as [Hr Hw1].
  destruct (m w) as [[b|e] w1], (m w') as [[b'|e'] w1']; simpl in *;
    try discriminate Hr.
  - injection Hr as <-. by apply Hk.
  - by injection Hr as <-.
Qed.

Lemma role_blind_session_get_user_id :
  role_blind (session_get "user_id" : M U C _).
Proof. intros w w' (Hs & Hu & Hc). unfold session_get. simpl. by rewrite Hs. Qed.

Lemma role_blind_session_set key value :
  role_blind (session_set key value : M U C _).
Proof.
  intros w w' (Hs & Hu & Hc). unfold session_set, same_user. simpl.
  split; [done|]. split; [|done].
  rewrite !lookup_insert. by case_decide.
Qed.

Lemma role_blind_session_clear : role_blind (session_clear : M U C _).
Proof. by intros w w' (Hs & Hu & Hc). Qed.

Lemma role_blind_get_user user_id : role_blind (get_user user_id : M U C _).
Proof. intros w w' (Hs & Hu & Hc). unfold get_user, same_user. simpl. by rewrite Hu. Qed.

Lemma role_blind_register_user user_id password role :
  role_blind (register_user user_id password role : M U C _).
Proof.
  intros w w' (Hs & Hu & Hc). unfold register_user, same_user. rewrite Hu.
  by destruct (store_register_user _ _ _ _).
Qed.

Lemma role_blind_create_classroom name location capacity equipment :
  role_blind (create_classroom name location capacity equipment : M U C _).
Proof.
  intros w w' (Hs & Hu & Hc). unfold create_classroom, same_user. rewrite Hc.
  by destruct (store_create_classroom _ _ _ _ _).
Qed.

Lemma role_blind_get_classroom classroom_id :
  role_blind (get_classroom classroom_id : M U C _).
Proof.
  intros w w' (Hs & Hu & Hc). unfold get_classroom, same_user. simpl. by rewrite Hc.
Qed.

Lemma role_blind_get_all_classrooms : role_blind (get_all_classrooms : M U C _).
Proof.
  intros w w' (Hs & Hu & Hc). unfold get_all_classrooms, same_user. simpl.
  by rewrite Hc.
Qed.

Lemma role_blind_update_classroom classroom_id name location capacity equipment :
  role_blind (update_classroom classroom_id name location capacity equipment : M U C _).
Proof.
  intros w w' (Hs & Hu & Hc). unfold update_classroom, same_user. rewrite Hc.
  by destruct (store_update_classroom _ _ _ _ _ _).
Qed.

Lemma role_blind_delete_classroom classroom_id :
  role_blind (delete_classroom classroom_id : M U C _).
Proof.
  intros w w' (Hs & Hu & Hc). unfold delete_classroom, same_user. rewrite Hc.
  by destruct (store_delete_classroom _ _).
Qed.
End RoleBlind.

Ltac role_blind_step :=
  first
    [ apply role_blind_ret
    | apply role_blind_raise
    | apply role_blind_session_get_user_id
    | apply role_blind_session_set
    | apply role_blind_session_clear
    | apply role_blind_get_user
    | apply role_blind_register_user
    | apply role_blind_create_classroom
    | apply role_blind_get_classroom
    | apply role_blind_get_all_classrooms
    | apply role_blind_update_classroom
    | apply role_blind_delete_classroom
    | apply role_blind_bind; [|intros ?]
    | match goal with
      | |- role_blind (match ?x with _ => _ end) => destruct x
      end ].

Section SessionRoleUnused.
Context {U C : Type} `{!UserStore U} `{!ClassroomStore C}.
Implicit Types (w : World U C) (d : Dict).

Lemma role_blind_get_current_user : role_blind (get_current_user : M U C _).
Proof. unfold get_current_user. repeat role_blind_step. Qed.

Lemma role_blind_app (r : Request) : role_blind (app r : M U C Response).
Proof.
  destruct r; simpl;
    unfold get_register_form, post_register, get_login_form, post_login, logout,
      root, list_classrooms, create_classroom_form, create_classroom_post,
      edit_classroom_form, edit_classroom_post, delete_classroom_post,
      require_admin, require_auth, get_current_user;
    cbv zeta; repeat role_blind_step.
Qed.

(** X14. No route reads anything from the session but the user_id.  Replace
    the session by any other that holds the same user_id, with another role
    or with none: every route gives the same response and leaves the same
    stores. *)
Theorem session_role_is_never_read (r : Request) w (s : Dict) :
  s !! "user_id" = session w !! "user_id" →
  (app r (with_session s w)).1 = (app r w).1
  ∧ user_db (app r (with_session s w)).2 = user_db (app r w).2
  ∧ classroom_db (app r (with_session s w)).2 = classroom_db (app r w).2.
Proof.
  intros Hs.
  assert (same_user (with_session s w) w) as Hw by done.
  destruct (role_blind_app r _ _ Hw) as (Hr & _ & Hu & Hc). done.
Qed.
End SessionRoleUnused.

(** ** A browser that never logs in *)

Section Anonymous.
Context {U C : Type} `{!UserStore U} `{!ClassroomStore C}.
Implicit Types (w : World U C) (d : Dict).

Lemma serve_cons (r : Request) (rs : list Request) w :
  serve (r :: rs) w =
    ((app r w).1 :: (serve rs (app r w).2).1, (serve rs (app r w).2).2).
Proof.
  simpl. destruct (app r w) as [o w1]. simpl. by destruct (serve rs w1).
Qed.

Lemma no_user_id_no_user w :
  session w !! "user_id" = None → (get_current_user w).1 = Returned None.
Proof. intros Hs. by rewrite get_current_user_unfold, Hs. Qed.

(** One request that is not a login, from a browser with no user_id in its
    session: still no user_id afterwards, the classrooms untouched, and 401
    if the route is behind a guard. *)
Lemma anonymous_step (r : Request) w :
  session w !! "user_id" = None →
  is_login r = false →
  session (app r w).2 !! "user_id" = None
  ∧ classroom_db (app r w).2 = classroom_db w
  ∧ (requires_login r = true →
       (app r w).1 = Raised (mkHTTPException 401 "로그인이 필요합니다.")).
Proof.
  intros Hs Hl. pose proof (no_user_id_no_user _ Hs) as Hn.
  destruct (get_current_user_world w) as (_ & _ & Hc & _).
  split; [|split].
  - destruct (is_logout r) eqn:Hlo.
    + destruct r; try discriminate Hlo. simpl. apply lookup_empty.
    + by rewrite app_keeps_session.
  - destruct (admin_write r) eqn:Hw; [|by apply app_keeps_classroom_db].
    assert (admin_only r = true) as Ha by (by destruct r).
    by rewrite (admin_only_raises r w _ _ Ha (require_admin_None _ Hn)).
  - intros Hr. destruct (admin_only r) eqn:Ha.
    + by rewrite (admin_only_raises r w _ _ Ha (require_admin_None _ Hn)).
    + destruct r; try discriminate Hr; try discriminate Ha.
      unfold app, list_classrooms.
      by rewrite (guarded_raises _ _ _ _ _ (require_auth_None _ Hn)).
Qed.

(** X15. A browser without a user_id in its session that sends any sequence
    of requests, none of them a POST /login, never changes the Classroom
    Store, still has no user_id in its session at the end, and gets 401 for
    every request in the sequence that goes to a route behind [require_auth]
    or [require_admin]. *)
Theorem anonymous_browser_stays_out (rs : list Request) w :
  session w !! "user_id" = None →
  Forall (λ r, is_login r = false) rs →
  classroom_db (serve rs w).2 = classroom_db w
  ∧ session (serve rs w).2 !! "user_id" = None
  ∧ ∀ (i : nat) r, rs !! i = Some r → requires_login r = true →
      (serve rs w).1 !! i = Some (Raised (mkHTTPException 401 "로그인이 필요합니다.")).
Proof.
  revert w. induction rs as [|r rs IH]; intros w Hs Hall.
  - by repeat split.
  - inversion Hall as [|? ? Hr Hrs]; subst.
    destruct (anonymous_step r w Hs Hr) as (Hs1 & Hc1 & H401).
    destruct (IH (app r w).2 Hs1 Hrs) as (Hc & Hs' & Hresp).
    rewrite serve_cons. simpl. split; [congruence|]. split; [done|].
    intros [|i] r' Hi Hreq; simpl in *.
    + injection Hi as <-. by rewrite H401.
    + by apply Hresp with r'.
Qed.
End Anonymous.

(** ** The further properties at concrete requests *)

Lemma root_page_witness :
  (get_current_user Demo.anonymous).1 = Returned None
  ∧ root Demo.anonymous =
      (Returned (RedirectResponse "/login" 302), (get_current_user Demo.anonymous).2)
  ∧ (get_current_user Demo.as_bob).1 =
      Returned (Some {[ "user_id" := "bob"; "role" := "Student" ]})
  ∧ root Demo.as_bob =
      (Returned (TemplateResponse "index.html"
                   {[ "request" := CRequest;
                      "user" := CDict {[ "user_id" := "bob"; "role" := "Student" ]} ]}),
       (get_current_user Demo.as_bob).2).
Proof.
  split; [reflexivity|]. split.
  - apply (root_page Demo.anonymous). reflexivity.
  - split; [reflexivity|]. apply (root_page Demo.as_bob). reflexivity.
Defined.

Lemma forms_redirect_when_logged_in_witness :
  (get_current_user Demo.as_bob).1 =
    Returned (Some {[ "user_id" := "bob"; "role" := "Student" ]})
  ∧ ((get_register_form Demo.as_bob).1 = Returned (RedirectResponse "/" 302) ∧
     (get_login_form Demo.as_bob).1 = Returned (RedirectResponse "/" 302))
  ∧ (get_current_user Demo.anonymous).1 = Returned None
  ∧ ((get_register_form Demo.anonymous).1 =
       Returned (TemplateResponse "register.html"
                   {[ "request" := CRequest; "error_message" := CNone ]}) ∧
     (get_login_form Demo.anonymous).1 =
       Returned (TemplateResponse "login.html"
                   {[ "request" := CRequest; "error_message" := CNone ]})).
Proof.
  split; [reflexivity|]. split.
  - apply (forms_redirect_when_logged_in Demo.as_bob)
      with (d := {[ "user_id" := "bob"; "role" := "Student" ]}). reflexivity.
  - split; [reflexivity|].
    apply (forms_redirect_when_logged_in Demo.anonymous). reflexivity.
Defined.

Lemma list_classrooms_any_role_witness :
  (get_current_user Demo.as_bob).1 =
    Returned (Some {[ "user_id" := "bob"; "role" := "Student" ]})
  ∧ (list_classrooms Demo.as_bob).1 =
      Returned (TemplateResponse "classrooms.html"
                  {[ "request" := CRequest;
                     "classrooms" :=
                       CClassrooms (store_get_all_classrooms (classroom_db Demo.as_bob));
                     "user" := CDict {[ "user_id" := "bob"; "role" := "Student" ]} ]})
  ∧ session (list_classrooms Demo.as_bob).2 = session Demo.as_bob
  ∧ user_db (list_classrooms Demo.as_bob).2 = user_db Demo.as_bob
  ∧ classroom_db (list_classrooms Demo.as_bob).2 = classroom_db Demo.as_bob.
Proof.
  split; [reflexivity|].
  apply (list_classrooms_any_role Demo.as_bob). reflexivity.
Defined.

Lemma create_classroom_form_admin_witness :
  (get_current_user Demo.as_alice).1 =
    Returned (Some {[ "user_id" := "alice"; "role" := "Admin" ]})
  ∧ (create_classroom_form Demo.as_alice).1 =
      Returned (TemplateResponse "classroom_form.html"
                  {[ "request" := CRequest;
                     "user" := CDict {[ "user_id" := "alice"; "role" := "Admin" ]};
                     "classroom" := CNone;
                     "mode" := CStr "create" ]}).
Proof.
  split; [reflexivity|].
  apply (create_classroom_form_admin Demo.as_alice); reflexivity.
Defined.

Lemma edit_classroom_form_admin_witness :
  store_get_classroom 7 (classroom_db Demo.as_alice) = None
  ∧ (edit_classroom_form 7 Demo.as_alice).1 =
      Raised (mkHTTPException 404 "강의실을 찾을 수 없습니다.")
  ∧ store_get_classroom 1 (classroom_db Demo.as_alice) = Some Demo.lab1
  ∧ (edit_classroom_form 1 Demo.as_alice).1 =
      Returned (TemplateResponse "classroom_form.html"
                  {[ "request" := CRequest;
                     "user" := CDict {[ "user_id" := "alice"; "role" := "Admin" ]};
                     "classroom" := CClassroom Demo.lab1;
                     "classroom_id" := CInt 1;
                     "mode" := CStr "edit" ]})
  ∧ classroom_db (edit_classroom_form 1 Demo.as_alice).2 = classroom_db Demo.as_alice.
Proof.
  destruct (edit_classroom_form_admin Demo.as_alice
              {[ "user_id" := "alice"; "role" := "Admin" ]} 7) as (H404 & _ & _);
    [reflexivity | reflexivity |].
  destruct (edit_classroom_form_admin Demo.as_alice
              {[ "user_id" := "alice"; "role" := "Admin" ]} 1) as (_ & Hform & Hdb);
    [reflexivity | reflexivity |].
  split; [reflexivity|]. split; [apply H404; reflexivity|].
  split; [reflexivity|]. split; [apply Hform; reflexivity | exact Hdb].
Defined.

Lemma classroom_change_needs_admin_witness :
  classroom_db (app (POST_classrooms_delete 1) Demo.as_alice).2 ≠
    classroom_db Demo.as_alice
  ∧ admin_write (POST_classrooms_delete 1) = true
  ∧ ∃ d, (get_current_user Demo.as_alice).1 = Returned (Some d) ∧
         d !! "role" = Some "Admin".
Proof.
  assert (classroom_db (app (POST_classrooms_delete 1) Demo.as_alice).2 ≠
          classroom_db Demo.as_alice) as Hne.
  { intros Heq. apply (f_equal (λ db, rooms db !! 1)) in Heq.
    vm_compute in Heq. discriminate Heq. }
  split; [exact Hne|].
  exact (classroom_change_needs_admin (POST_classrooms_delete 1) Demo.as_alice Hne).
Defined.

Lemma user_change_needs_register_witness :
  user_db (app (POST_register "carol" "pw3" Student) Demo.anonymous).2 ≠
    user_db Demo.anonymous
  ∧ ∃ user_id password role,
      POST_register "carol" "pw3" Student = POST_register user_id password role ∧
      user_id ≠ "" ∧ password ≠ "".
Proof.
  assert (user_db (app (POST_register "carol" "pw3" Student) Demo.anonymous).2 ≠
          user_db Demo.anonymous) as Hne.
  { intros Heq. apply (f_equal (λ db : gmap string User, db !! "carol")) in Heq.
    vm_compute in Heq. discriminate Heq. }
  split; [exact Hne|].
  exact (user_change_needs_register (POST_register "carol" "pw3" Student)
           Demo.anonymous Hne).
Defined.

Lemma session_change_needs_login_or_logout_witness :
  session (app (POST_login "alice" "pw1") Demo.anonymous).2 ≠ session Demo.anonymous
  ∧ (POST_login "alice" "pw1" = GET_logout
     ∨ ∃ user_id password user,
         POST_login "alice" "pw1" = POST_login user_id password ∧
         store_get_user user_id (user_db Demo.anonymous) = Some user ∧
         u_password user = password).
Proof.
  assert (session (app (POST_login "alice" "pw1") Demo.anonymous).2 ≠
          session Demo.anonymous) as Hne.
  { intros Heq. apply (f_equal (λ s : Dict, s !! "user_id")) in Heq.
    vm_compute in Heq. discriminate Heq. }
  split; [exact Hne|].
  exact (session_change_needs_login_or_logout (POST_login "alice" "pw1")
           Demo.anonymous Hne).
Defined.

Lemma get_routes_only_look_up_witness :
  is_get (GET_classrooms_edit 1) = true
  ∧ user_db (app (GET_classrooms_edit 1) Demo.as_alice).2 = user_db Demo.as_alice
  ∧ classroom_db (app (GET_classrooms_edit 1) Demo.as_alice).2 =
      classroom_db Demo.as_alice
  ∧ ∃ t, calls (app (GET_classrooms_edit 1) Demo.as_alice).2 =
           calls Demo.as_alice ++ t ∧
         Forall (λ c, is_lookup_call c = true) t.
Proof.
  split; [reflexivity|].
  apply (get_routes_only_look_up (GET_classrooms_edit 1) Demo.as_alice). reflexivity.
Defined.

Lemma login_starts_session_witness :
  store_get_user "bob" (user_db Demo.anonymous) = Some Demo.bob
  ∧ u_password Demo.bob = "pw2"
  ∧ (get_current_user (post_login "bob" "pw2" Demo.anonymous).2).1 =
      Returned (Some {[ "user_id" := "bob"; "role" := u_role Demo.bob ]})
  ∧ (root (post_login "bob" "pw2" Demo.anonymous).2).1 =
      Returned (TemplateResponse "index.html"
                  {[ "request" := CRequest;
                     "user" := CDict {[ "user_id" := "bob";
                                        "role" := u_role Demo.bob ]} ]}).
Proof.
  split; [reflexivity|]. split; [reflexivity|].
  apply (login_starts_session Demo.anonymous "bob" "pw2" Demo.bob);
    [reflexivity | reflexivity | discriminate].
Defined.

Lemma session_role_is_never_read_witness :
  ({[ "user_id" := "alice"; "role" := "Student" ]} : Dict) !! "user_id" =
    session Demo.as_alice !! "user_id"
  ∧ (app GET_classrooms_create
       (with_session {[ "user_id" := "alice"; "role" := "Student" ]} Demo.as_alice)).1 =
      (app GET_classrooms_create Demo.as_alice).1
  ∧ user_db (app GET_classrooms_create
       (with_session {[ "user_id" := "alice"; "role" := "Student" ]} Demo.as_alice)).2 =
      user_db (app GET_classrooms_create Demo.as_alice).2
  ∧ classroom_db (app GET_classrooms_create
       (with_session {[ "user_id" := "alice"; "role" := "Student" ]} Demo.as_alice)).2 =
      classroom_db (app GET_classrooms_create Demo.as_alice).2.
Proof.
  split; [reflexivity|].
  apply (session_role_is_never_read GET_classrooms_create Demo.as_alice
           {[ "user_id" := "alice"; "role" := "Student" ]}).
  reflexivity.
Defined.

Lemma anonymous_browser_stays_out_witness :
  session Demo.anonymous !! "user_id" = None
  ∧ classroom_db
      (serve [GET_classrooms; POST_register "mallory" "pw" Admin;
              POST_classrooms_delete 1; GET_logout;
              POST_classrooms_create "Mine" "Here" 1 true true] Demo.anonymous).2 =
      classroom_db Demo.anonymous
  ∧ session
      (serve [GET_classrooms; POST_register "mallory" "pw" Admin;
              POST_classrooms_delete 1; GET_logout;
              POST_classrooms_create "Mine" "Here" 1 true true] Demo.anonymous).2
      !! "user_id" = None
  ∧ ∀ (i : nat) r,
      [GET_classrooms; POST_register "mallory" "pw" Admin;
       POST_classrooms_delete 1; GET_logout;
       POST_classrooms_create "Mine" "Here" 1 true true] !! i = Some r →
      requires_login r = true →
      (serve [GET_classrooms; POST_register "mallory" "pw" Admin;
              POST_classrooms_delete 1; GET_logout;
              POST_classrooms_create "Mine" "Here" 1 true true] Demo.anonymous).1 !! i =
        Some (Raised (mkHTTPException 401 "로그인이 필요합니다.")).
Proof.
  split; [reflexivity|].
  apply (anonymous_browser_stays_out
           [GET_classrooms; POST_register "mallory" "pw" Admin;
            POST_classrooms_delete 1; GET_logout;
            POST_classrooms_create "Mine" "Here" 1 true true] Demo.anonymous);
    [reflexivity | repeat constructor].
Defined.

(** ** Requests as the program answers them *)

Section FrontDoor.
Context {U C : Type} `{!UserStore U} `{!ClassroomStore C}.
Implicit Types (w : World U C) (d : Dict).

Lemma http_pass (r : Request) w :
  form_ok r = true → http r w = (Handled (app r w).1, (app r w).2).
Proof. intros Hr. unfold http. rewrite Hr. by destruct (app r w). Qed.

Lemma http_reject (r : Request) w :
  form_ok r = false → http r w = (Unprocessable, w).
Proof. intros Hr. unfold http. by rewrite Hr. Qed.

(** Whatever session a login finds, empty or an earlier login's, it leaves
    exactly its own pair. *)
Lemma login_overwrites_session (s : Dict) (user_id role : string) :
  login_session s →
  <[ "role" := role ]> (<[ "user_id" := user_id ]> s) =
    {[ "user_id" := user_id; "role" := role ]}.
Proof.
  intros [-> | (uid0 & role0 & _ & ->)]; apply map_eq; intros k;
    destruct (decide (k = "role")) as [->|]; try destruct (decide (k = "user_id")) as [->|];
    by simplify_map_eq.
Qed.

Lemma http_keeps_login_session (r : Request) w :
  login_session (session w) → login_session (session (http r w).2).
Proof.
  intros Hs. destruct (form_ok r) eqn:Hok; [|by rewrite http_reject].
  rewrite http_pass by done. simpl.
  destruct (is_logout r) eqn:Hlo; [destruct r; try discriminate Hlo; by left|].
  destruct (is_login r) eqn:Hli; [|by rewrite app_keeps_session].
  destruct r; try discriminate Hli. simpl in Hok |- *.
  apply andb_prop in Hok as [Hid _]. apply truthy_str_true in Hid.
  unfold post_login, get_user. unfold_monad.
  destruct (store_get_user user_id (user_db w)) as [u|]; [|done].
  destruct (bool_decide (u_password u = password)); simpl; [|done].
  right. exists user_id, (u_role u). split; [done|].
  by apply login_overwrites_session.
Qed.

Lemma reachable_login_session w : reachable w → login_session (session w).
Proof.
  induction 1 as [u c log | r w _ IH | u c w _ IH]; simpl.
  - by left.
  - by apply http_keeps_login_session.
  - done.
Qed.

Lemma reachable_user_id_nonempty w (user_id : string) :
  reachable w → session w !! "user_id" = Some user_id → user_id ≠ "".
Proof.
  intros Hw Hs. destruct (reachable_login_session w Hw) as [He | (uid & role & Hne & He)];
    rewrite He in Hs.
  - by rewrite lookup_empty in Hs.
  - rewrite lookup_insert_eq in Hs. congruence.
Qed.

(** C3. In every session state a browser can be in (it starts without a
    cookie and the session is written by the handlers only):
    [get_current_user] returns None when the session contains no user_id;
    when the session contains a user_id, it fetches that user's record from
    the User Store (one [get_user] call, nothing else changes), returns None
    if no such user exists, and otherwise returns the dict with exactly the
    keys user_id, from the session, and role, from the fetched store
    record. *)
Theorem current_user_of_session w :
  reachable w →
  (session w !! "user_id" = None → get_current_user w = (Returned None, w))
  ∧ (∀ user_id, session w !! "user_id" = Some user_id →
       (get_current_user w).2 =
         log_call (CallGetUser user_id) (user_db w) (classroom_db w) w
       ∧ (store_get_user user_id (user_db w) = None →
            (get_current_user w).1 = Returned None)
       ∧ (∀ user, store_get_user user_id (user_db w) = Some user →
            ∃ d, (get_current_user w).1 = Returned (Some d) ∧
                 d !! "user_id" = Some user_id ∧
                 d !! "role" = Some (u_role user) ∧
                 dom d = {[ "user_id"; "role" ]})).
Proof.
  intros Hw. destruct (get_current_user_correct w) as [Hnone Hfetch]. split.
  - intros Hs. apply Hnone. by left.
  - intros user_id Hs. apply Hfetch; [done|].
    by apply reachable_user_id_nonempty with w.
Qed.

(** C7. What the program does with a POST /register in which user_id or
    password is the empty string: the request does not pass form parsing and
    is answered 422, the world unchanged.  [post_register] is never called,
    so its own branch for this case, which would answer with the re-rendered
    form and status 200, is not reached. *)
Theorem post_register_empty_field_unprocessable w (user_id password : string)
    (role : Role) :
  user_id = "" ∨ password = "" →
  http (POST_register user_id password role) w = (Unprocessable, w)
  ∧ reply_status (http (POST_register user_id password role) w).1 = 422
  ∧ ∃ resp, post_register user_id password role w = (Returned resp, w) ∧
            response_status resp = 200.
Proof.
  intros H.
  assert (form_ok (POST_register user_id password role) = false) as Hno.
  { simpl. destruct H as [-> | ->]; [done|]. apply andb_false_r. }
  rewrite (http_reject _ _ Hno). split; [done|]. split; [done|].
  destruct (post_register_missing_field w user_id password role H)
    as (resp & Hrun & _ & Hstatus & _).
  by exists resp.
Qed.

(** X6. An Admin's POST /classrooms/create whose name and location are not
    empty always answers with a redirect to /classrooms with status 303 and
    hands the submitted values to the store's create as they are: the handler
    checks nothing, so any capacity, a negative one included, is accepted.
    Session and User Store are as they were.  With an empty name or location
    the request is answered 422 and nothing is created. *)
Theorem admin_create_redirects_once_parsed w d (name location : string)
    (capacity : Z) (projector whiteboard : bool) :
  (get_current_user w).1 = Returned (Some d) →
  d !! "role" = Some "Admin" →
  (name ≠ "" → location ≠ "" →
     (http (POST_classrooms_create name location capacity projector whiteboard) w).1 =
       Handled (Returned (RedirectResponse "/classrooms" 303))
     ∧ session (http (POST_classrooms_create name location capacity projector
                        whiteboard) w).2 = session w
     ∧ user_db (http (POST_classrooms_create name location capacity projector
                        whiteboard) w).2 = user_db w
     ∧ classroom_db (http (POST_classrooms_create name location capacity projector
                             whiteboard) w).2 =
         (store_create_classroom name location capacity
            (submitted_equipment projector whiteboard) (classroom_db w)).2)
  ∧ (name = "" ∨ location = "" →
       http (POST_classrooms_create name location capacity projector whiteboard) w =
         (Unprocessable, w)).
Proof.
  intros Hd Ha. split.
  - intros Hn Hl. apply truthy_str_true in Hn, Hl.
    rewrite http_pass by (simpl; by rewrite Hn, Hl). simpl.
    destruct (get_current_user_world w) as (Hs & Hu & _).
    assert ((require_admin w).1 = Returned d) as Hra
      by (by rewrite (require_admin_Admin _ _ Hd Ha)).
    by rewrite (create_classroom_post_admin _ _ _ _ _ _ _ Hra).
  - intros H. apply http_reject. simpl.
    destruct H as [-> | ->]; [done|]. apply andb_false_r.
Qed.

(** X13. A POST /login with the empty string as user_id is answered 422: it
    makes no [get_user] call and writes no session.  So in every state a
    browser can be in, the session is either empty or exactly the pair
    {user_id, role} of a login, with a user_id that is not empty. *)
Theorem session_is_empty_or_login_pair w (password : string) :
  reachable w →
  http (POST_login "" password) w = (Unprocessable, w)
  ∧ login_session (session w).
Proof.
  intros Hw. split; [by apply http_reject|]. by apply reachable_login_session.
Qed.
End FrontDoor.

Lemma current_user_of_session_witness :
  reachable (http (POST_login "alice" "pw1") Demo.anonymous).2
  ∧ session (http (POST_login "alice" "pw1") Demo.anonymous).2 !! "user_id" =
      Some "alice"
  ∧ store_get_user "alice" (user_db (http (POST_login "alice" "pw1") Demo.anonymous).2) =
      Some Demo.alice
  ∧ ∃ d, (get_current_user (http (POST_login "alice" "pw1") Demo.anonymous).2).1 =
           Returned (Some d) ∧
         d !! "user_id" = Some "alice" ∧
         d !! "role" = Some (u_role Demo.alice) ∧
         dom d = {[ "user_id"; "role" ]}.
Proof.
  assert (reachable (http (POST_login "alice" "pw1") Demo.anonymous).2) as Hw
    by exact (reachable_request (POST_login "alice" "pw1") Demo.anonymous
                (reachable_fresh Demo.users Demo.classrooms [])).
  split; [exact Hw|]. split; [reflexivity|]. split; [reflexivity|].
  destruct (current_user_of_session _ Hw) as [_ Hfetch].
  destruct (Hfetch "alice") as (_ & _ & Hsome); [reflexivity|].
  exact (Hsome Demo.alice eq_refl).
Defined.

Lemma post_register_empty_field_unprocessable_witness :
  http (POST_register "dave" "" Admin) Demo.anonymous = (Unprocessable, Demo.anonymous)
  ∧ reply_status (http (POST_register "dave" "" Admin) Demo.anonymous).1 = 422
  ∧ ∃ resp, post_register "dave" "" Admin Demo.anonymous = (Returned resp, Demo.anonymous) ∧
            response_status resp = 200.
Proof.
  apply (post_register_empty_field_unprocessable Demo.anonymous "dave" "" Admin).
  right. reflexivity.
Defined.

Lemma admin_create_redirects_once_parsed_witness :
  (get_current_user Demo.as_alice).1 =
    Returned (Some {[ "user_id" := "alice"; "role" := "Admin" ]})
  ∧ (http (POST_classrooms_create "Lab2" "Bldg B" (-5) false false) Demo.as_alice).1 =
      Handled (Returned (RedirectResponse "/classrooms" 303))
  ∧ http (POST_classrooms_create "" "Bldg B" (-5) false false) Demo.as_alice =
      (Unprocessable, Demo.as_alice).
Proof.
  split; [reflexivity|].
  destruct (admin_create_redirects_once_parsed Demo.as_alice
              {[ "user_id" := "alice"; "role" := "Admin" ]} "Lab2" "Bldg B" (-5)
              false false) as [Hok _]; [reflexivity | reflexivity |].
  destruct (admin_create_redirects_once_parsed Demo.as_alice
              {[ "user_id" := "alice"; "role" := "Admin" ]} "" "Bldg B" (-5)
              false false) as [_ Hno]; [reflexivity | reflexivity |].
  split; [apply Hok; discriminate | apply Hno; left; reflexivity].
Defined.

Lemma session_is_empty_or_login_pair_witness :
  reachable (http (POST_login "bob" "pw2") Demo.anonymous).2
  ∧ http (POST_login "" "pw2") (http (POST_login "bob" "pw2") Demo.anonymous).2 =
      (Unprocessable, (http (POST_login "bob" "pw2") Demo.anonymous).2)
  ∧ login_session (session (http (POST_login "bob" "pw2") Demo.anonymous).2).
Proof.
  assert (reachable (http (POST_login "bob" "pw2") Demo.anonymous).2) as Hw
    by exact (reachable_request (POST_login "bob" "pw2") Demo.anonymous
                (reachable_fresh Demo.users Demo.classrooms [])).
  split; [exact Hw|].
  exact (session_is_empty_or_login_pair _ "pw2" Hw).
Defined.
